(** * Collision-Expansion-Viewer: the geometry engine

    A shallow embedding of [collisionBoxExpansion.py] (class
    [ObstacleExpander]) and [CollisionDetector.py] (class
    [CollisionDetector]), and the properties of the specification that
    are stated about them; with them the grid snapping of [utils.py] and
    the polygon editor of [PolygonEditor.py].

    Numbers.  The Python code computes with floats; the embedding
    computes with exact rationals ([Q]).  The obstacles of the examples
    have small integer coordinates, on which each operation the code
    performs is exact in floating point too, apart from the quotient [t]
    formed in [_line_intersection].  Because [Q] keeps fractions
    unreduced, computed points are compared with [==] ([Qeq]), pointwise
    on points and edges.

    Libraries.  The functions the code takes from [math], [numpy] and
    [scipy] are parameters of the development (class [External]); what is
    proved holds for each of them, under the hypothesis it states.  Module
    [Reference] gives rational stand-ins, with which the model runs on the
    examples.  [QPolygonF], [QRectF] and [QPainterPath] are given by their
    documented meaning on polygons.

    Objects.  An obstacle dictionary is a record with optional fields; the
    expander object is threaded through [expand_obstacle] in a state and
    exception monad. *)

From Stdlib Require Import String.
From Stdlib Require Import QArith Qabs Qminmax Qreduction ZArith List Bool Arith Lia Lqa.
From Stdlib Require Import Setoid Morphisms.
From Stdlib Require Import Qround.
Import ListNotations.

Open Scope Q_scope.

(** ** Numbers and points *)

Definition Qltb (a b : Q) : bool := negb (Qle_bool b a).
Definition Qgtb (a b : Q) : bool := Qltb b a.
Definition Qgeb (a b : Q) : bool := Qle_bool b a.

(** A [QPointF], a row of a numpy array of shape (n, 2). *)
Definition point : Type := (Q * Q)%type.

Definition pt_eq (p q : point) : Prop := fst p == fst q /\ snd p == snd q.

Definition padd (p q : point) : point := (fst p + fst q, snd p + snd q).
Definition psub (p q : point) : point := (fst p - fst q, snd p - snd q).
Definition pscale (p : point) (k : Q) : point := (fst p * k, snd p * k).
Definition pdiv (p : point) (k : Q) : point := (fst p / k, snd p / k).

(** [vertices[i]] for an index the code keeps in range. *)
Definition vertex_at (vertices : list point) (i : nat) : point :=
  nth i vertices (0, 0).

(** ** Winding normalizer *)

(** The summand of the shoelace loop: [x1 * y2 - x2 * y1]. *)
Definition shoelace_term (vertices : list point) (n i : nat) : Q :=
  let '(x1, y1) := vertex_at vertices i in
  let '(x2, y2) := vertex_at vertices ((i + 1) mod n) in
  x1 * y2 - x2 * y1.

(** The value of [signed_area] when the loop of [_is_counter_clockwise]
    ends. *)
Definition signed_area (vertices : list point) : Q :=
  let n := length vertices in
  fold_left (fun acc i => acc + shoelace_term vertices n i) (seq 0 n) 0.

Definition _is_counter_clockwise (vertices : list point) : bool :=
  Qgtb (signed_area vertices) 0.

Definition _ensure_counter_clockwise (vertices : list point) : list point :=
  if negb (_is_counter_clockwise vertices) then rev vertices else vertices.

(** ** Library functions

    What the code calls in [math], [numpy] and [scipy.spatial].  [sqrt] is
    the square root inside [np.linalg.norm]; [ConvexHull] answers with
    [hull.vertices] (indices into its argument), or with [None] where
    scipy raises. *)

Class External : Type := {
  sqrt : Q -> Q;
  cos : Q -> Q;
  sin : Q -> Q;
  atan2 : Q -> Q -> Q;
  pi : Q;
  ConvexHull : list point -> option (list nat)
}.

(** ** Obstacles and boundaries *)

(** The dictionary under the key ['directional_expansion']. *)
Record DirectionalExpansion : Type := {
  north : option Q;
  south : option Q;
  east : option Q;
  west : option Q
}.

(** An obstacle dictionary.  The keys read with [obstacle[...]] are
    fields; the keys read with [obstacle.get(...)] or tested with [in]
    are optional. *)
Record Obstacle : Type := {
  o_type : option string;
  o_x : Q;
  o_y : Q;
  o_width : Q;
  o_height : Q;
  o_rotation : option Q;
  o_can_rotate : option bool;
  o_points : option (list point);
  o_expansion_distance : option Q;
  o_expansion_method : option string;
  o_use_directional_expansion : option bool;
  o_directional_expansion : option DirectionalExpansion;
  o_force_convex_hull : option bool
}.

(** [d.get(key, default)]. *)
Definition get {A : Type} (entry : option A) (default : A) : A :=
  match entry with Some v => v | None => default end.

Definition no_directions : DirectionalExpansion :=
  {| north := None; south := None; east := None; west := None |}.

(** What [expand_obstacle] returns when it returns a value other than
    [None]: a list of [QPointF], or the tuple
    [(edges, arc_centers, arc_radius)]. *)
Inductive ExpandedBoundary : Type :=
| Polygon (vertices : list point)
| Arcs (edges : list (point * point)) (arc_centers : list point) (arc_radius : Q).

Inductive exception : Type :=
| ValueError.

Inductive result (A : Type) : Type :=
| Ok (value : A)
| Raise (e : exception).
Arguments Ok {A} value.
Arguments Raise {A} e.

(** ** The expander object and its methods *)

Record ObstacleExpander : Type := {
  d_exp : Q;
  force_convex_hull : bool
}.

Definition METHOD_PRESERVE_SHAPE : string := "preserve_shape".
Definition METHOD_CONVEX : string := "convex".
Definition METHOD_GENERALIZED : string := "generalized".

(** Methods that assign to [self] and may raise: a state and exception
    monad over the expander object. *)
Definition M (A : Type) : Type := ObstacleExpander -> result A * ObstacleExpander.

Definition ret {A : Type} (a : A) : M A := fun self => (Ok a, self).

Definition bind {A B : Type} (m : M A) (k : A -> M B) : M B :=
  fun self =>
    match m self with
    | (Ok a, self') => k a self'
    | (Raise e, self') => (Raise e, self')
    end.

Definition raise {A : Type} (e : exception) : M A := fun self => (Raise e, self).

Definition get_self : M ObstacleExpander := fun self => (Ok self, self).

Definition set_d_exp (distance : Q) : M unit :=
  fun self => (Ok tt, {| d_exp := distance; force_convex_hull := force_convex_hull self |}).

Definition lift {A : Type} (r : result A) : M A := fun self => (r, self).

(** [try: body finally: final]: [final] runs however [body] ends; the
    outcome of [body] stands unless [final] raises. *)
Definition try_finally {A : Type} (body : M A) (final : M unit) : M A :=
  fun self =>
    let '(r, self') := body self in
    match final self' with
    | (Ok _, self'') => (r, self'')
    | (Raise e, self'') => (Raise e, self'')
    end.

Declare Scope expander_scope.
Delimit Scope expander_scope with expander.
Notation "x <- m ;; k" := (bind m (fun x => k))
  (at level 61, m at next level, right associativity) : expander_scope.
Notation "m ;;; k" := (bind m (fun _ => k))
  (at level 61, right associativity) : expander_scope.

Definition eps : Q := 1 # 10000000000.

Definition centroid (vertices : list point) : point :=
  let n := inject_Z (Z.of_nat (length vertices)) in
  (fold_left Qplus (map fst vertices) 0 / n,
   fold_left Qplus (map snd vertices) 0 / n).

Section Engine.

Context {ext : External}.

(** [np.linalg.norm] of a vector of two components. *)
Definition norm (v : point) : Q := sqrt (fst v * fst v + snd v * snd v).

(** [math.radians]. *)
Definition radians (degrees : Q) : Q := degrees * pi / 180.

(** [(local_vertices - center) @ rotation_matrix.T + center]. *)
Definition rotate_about (center : point) (rotation : Q) (vertices : list point) : list point :=
  let rad := radians rotation in
  let cos_r := cos rad in
  let sin_r := sin rad in
  map (fun v =>
         let d := psub v center in
         padd (fst d * cos_r - snd d * sin_r, fst d * sin_r + snd d * cos_r) center)
      vertices.

Definition _regular_polygon_vertices (cx cy radius : Q) (num_sides : nat) : list point :=
  let start := - pi / 2 in
  let stop := 2 * pi - pi / 2 in
  let step := (stop - start) / inject_Z (Z.of_nat num_sides) in
  map (fun i =>
         let angle := inject_Z (Z.of_nat i) * step + start in
         (cx + radius * cos angle, cy + radius * sin angle))
      (seq 0 num_sides).

Definition rectangle_vertices (width height : Q) : list point :=
  [(0, 0); (width, 0); (width, height); (0, height)].

Definition triangle_vertices (width height : Q) : list point :=
  [(width / 2, 0); (width, height); (0, height)].

(** The shape-dependent local vertices of [_obstacle_to_vertices].  A
    custom polygon with an empty point list gives an array of shape (0,),
    on which the arithmetic that follows raises. *)
Definition local_vertices_of (obstacle_type : string) (obstacle : Obstacle)
  : result (list point) :=
  let width := o_width obstacle in
  let height := o_height obstacle in
  if String.eqb obstacle_type "rectangle" then Ok (rectangle_vertices width height)
  else if String.eqb obstacle_type "triangle" then Ok (triangle_vertices width height)
  else if String.eqb obstacle_type "pentagon" then
    Ok (_regular_polygon_vertices (width / 2) (height / 2) (Qmin width height / 2) 5)
  else if String.eqb obstacle_type "hexagon" then
    Ok (_regular_polygon_vertices (width / 2) (height / 2) (Qmin width height / 2) 6)
  else
    match String.eqb obstacle_type "custom_polygon", o_points obstacle with
    | true, Some [] => Raise ValueError
    | true, Some pts => Ok pts
    | _, _ => Ok (rectangle_vertices width height)
    end.

Definition _obstacle_to_vertices (obstacle : Obstacle) : result (list point) :=
  let obstacle_type := get (o_type obstacle) "rectangle"%string in
  let x := o_x obstacle in
  let y := o_y obstacle in
  let width := o_width obstacle in
  let height := o_height obstacle in
  let rotation := get (o_rotation obstacle) 0 in
  match local_vertices_of obstacle_type obstacle with
  | Raise e => Raise e
  | Ok local_vertices =>
      let can_rotate := get (o_can_rotate obstacle) true in
      let local_vertices :=
        if negb (Qeq_bool rotation 0) && can_rotate then
          let center :=
            if String.eqb obstacle_type "custom_polygon" then centroid local_vertices
            else (width / 2, height / 2) in
          rotate_about center rotation local_vertices
        else local_vertices in
      Ok (map (fun v => padd v (x, y)) local_vertices)
  end.

Definition _compute_convex_hull (vertices : list point) : list point :=
  if (length vertices <? 3)%nat then vertices
  else
    match ConvexHull vertices with
    | Some hull_vertices =>
        _ensure_counter_clockwise (map (vertex_at vertices) hull_vertices)
    | None => vertices
    end.

(** [(edge[1], -edge[0])] for [edge = v2 - v1]. *)
Definition raw_normal (v1 v2 : point) : point :=
  let edge := psub v2 v1 in
  (snd edge, - fst edge).

(** The normal as [expand_polygon_preserve_shape] computes it: the zero
    vector for an edge of length at most [1e-10]. *)
Definition normal_or_zero (v1 v2 : point) : point :=
  let normal := raw_normal v1 v2 in
  let normal_len := norm normal in
  if Qgtb normal_len eps then pdiv normal normal_len else (0, 0).

(** The normal as every other method computes it: left as it is for an
    edge of length at most [1e-10]. *)
Definition normal_or_self (v1 v2 : point) : point :=
  let normal := raw_normal v1 v2 in
  let normal_len := norm normal in
  if Qgtb normal_len eps then pdiv normal normal_len else normal.

Definition _line_intersection (p1 p2 p3 p4 : point) : point :=
  let '(x1, y1) := p1 in
  let '(x2, y2) := p2 in
  let '(x3, y3) := p3 in
  let '(x4, y4) := p4 in
  let denom := (x1 - x2) * (y3 - y4) - (y1 - y2) * (x3 - x4) in
  if Qltb (Qabs denom) eps then pdiv (padd p2 p3) 2
  else
    let t := ((x1 - x3) * (y3 - y4) - (y1 - y3) * (x3 - x4)) / denom in
    (x1 + t * (x2 - x1), y1 + t * (y2 - y1)).

Definition edge_at (edges : list (point * point)) (i : nat) : point * point :=
  nth i edges ((0, 0), (0, 0)).

(** The second loop of [expand_polygon_preserve_shape] and of
    [expand_polygon_directional]: adjacent offset edges are intersected. *)
Definition intersect_adjacent (expanded_edges : list (point * point)) : list point :=
  let n := length expanded_edges in
  map (fun i =>
         let '(p1, p2) := edge_at expanded_edges i in
         let '(p3, p4) := edge_at expanded_edges ((i + 1) mod n) in
         _line_intersection p1 p2 p3 p4)
      (seq 0 n).

Definition expand_polygon_preserve_shape (self : ObstacleExpander) (vertices : list point)
  : list point :=
  let vertices := _ensure_counter_clockwise vertices in
  let n := length vertices in
  let expanded_edges :=
    map (fun i =>
           let v1 := vertex_at vertices i in
           let v2 := vertex_at vertices ((i + 1) mod n) in
           let offset := pscale (normal_or_zero v1 v2) (d_exp self) in
           (padd v1 offset, padd v2 offset))
        (seq 0 n) in
  intersect_adjacent expanded_edges.

(** The loop shared by [expand_polygon_convex] and the convex branches of
    the two directional methods: two points per vertex, pushed along the
    normals of the two edges that meet there. *)
Definition bevel (vertices : list point) (distance : Q) : list point :=
  let n := length vertices in
  flat_map (fun i =>
              let v_curr := vertex_at vertices i in
              let v_prev := vertex_at vertices ((i + n - 1) mod n) in
              let v_next := vertex_at vertices ((i + 1) mod n) in
              let normal_prev := normal_or_self v_prev v_curr in
              let normal_next := normal_or_self v_curr v_next in
              [padd v_curr (pscale normal_prev distance);
               padd v_curr (pscale normal_next distance)])
           (seq 0 n).

Definition expand_polygon_convex (self : ObstacleExpander) (vertices : list point)
  : list point :=
  let vertices := _ensure_counter_clockwise vertices in
  bevel vertices (d_exp self).

Definition expand_polygon_generalized (self : ObstacleExpander) (vertices : list point)
  : list (point * point) * list point * Q :=
  let vertices := _ensure_counter_clockwise vertices in
  let n := length vertices in
  let expanded_edges :=
    map (fun i =>
           let v1 := vertex_at vertices i in
           let v2 := vertex_at vertices ((i + 1) mod n) in
           let offset := pscale (normal_or_self v1 v2) (d_exp self) in
           (padd v1 offset, padd v2 offset))
        (seq 0 n) in
  (expanded_edges, vertices, d_exp self).

(** [[v_i, v_(i+1) % n] for i in range(n)]: the sides of a polygon. *)
Definition sides (vertices : list point) : list (point * point) :=
  let n := length vertices in
  map (fun i => (vertex_at vertices i, vertex_at vertices ((i + 1) mod n))) (seq 0 n).

Definition type_is (obstacle : Obstacle) (name : string) : bool :=
  match o_type obstacle with
  | Some t => String.eqb t name
  | None => false
  end.

Definition all_zero (exp_north exp_south exp_east exp_west : Q) : bool :=
  Qeq_bool exp_north 0 && Qeq_bool exp_south 0 && Qeq_bool exp_east 0 && Qeq_bool exp_west 0.

Definition any_positive (exp_north exp_south exp_east exp_west : Q) : bool :=
  Qgtb exp_north 0 || Qgtb exp_south 0 || Qgtb exp_east 0 || Qgtb exp_west 0.

(** [max(exp_north, exp_south, exp_east, exp_west)]. *)
Definition max4 (a b c d : Q) : Q := Qmax (Qmax (Qmax a b) c) d.

(** The last part of both directional methods: the representation of the
    selected method, from the directionally offset polygon. *)
Definition apply_method (obstacle : Obstacle) (world_vertices : list point)
    (exp_north exp_south exp_east exp_west : Q) : ExpandedBoundary :=
  let method := get (o_expansion_method obstacle) METHOD_GENERALIZED in
  if String.eqb method METHOD_GENERALIZED then
    Arcs (sides world_vertices) world_vertices (max4 exp_north exp_south exp_east exp_west)
  else if String.eqb method METHOD_CONVEX then
    Polygon (bevel world_vertices ((exp_north + exp_south + exp_east + exp_west) / 4))
  else
    Polygon world_vertices.

Definition expand_rectangle_directional (obstacle : Obstacle)
  : result (option ExpandedBoundary) :=
  if negb (type_is obstacle "rectangle") then Raise ValueError
  else
    let x := o_x obstacle in
    let y := o_y obstacle in
    let width := o_width obstacle in
    let height := o_height obstacle in
    let rotation := get (o_rotation obstacle) 0 in
    let directional_exp := get (o_directional_expansion obstacle) no_directions in
    let exp_north := get (north directional_exp) 0 in
    let exp_south := get (south directional_exp) 0 in
    let exp_east := get (east directional_exp) 0 in
    let exp_west := get (west directional_exp) 0 in
    if all_zero exp_north exp_south exp_east exp_west then Ok None
    else
      let local_vertices :=
        [(- exp_west, - exp_north);
         (width + exp_east, - exp_north);
         (width + exp_east, height + exp_south);
         (- exp_west, height + exp_south)] in
      let local_vertices :=
        if negb (Qeq_bool rotation 0)
        then rotate_about (width / 2, height / 2) rotation local_vertices
        else local_vertices in
      let world_vertices := map (fun v => padd v (x, y)) local_vertices in
      Ok (Some (apply_method obstacle world_vertices exp_north exp_south exp_east exp_west)).

Definition _get_local_vertices_for_type (obstacle_type : option string) (width height : Q)
  : result (list point) :=
  match obstacle_type with
  | None => Raise ValueError
  | Some t =>
      if String.eqb t "triangle" then Ok (triangle_vertices width height)
      else if String.eqb t "pentagon" then
        Ok (_regular_polygon_vertices (width / 2) (height / 2) (Qmin width height / 2) 5)
      else if String.eqb t "hexagon" then
        Ok (_regular_polygon_vertices (width / 2) (height / 2) (Qmin width height / 2) 6)
      else Raise ValueError
  end.

(** The first loop of [expand_polygon_directional]: each edge is moved
    along its normal by the projection of its directional vector. *)
Definition directional_edges (local_vertices : list point) (center : point)
    (exp_north exp_south exp_east exp_west : Q) : list (point * point) :=
  let n := length local_vertices in
  map (fun i =>
         let v1 := vertex_at local_vertices i in
         let v2 := vertex_at local_vertices ((i + 1) mod n) in
         let edge_midpoint := pdiv (padd v1 v2) 2 in
         let is_north := Qltb (snd edge_midpoint) (snd center) in
         let is_south := Qgtb (snd edge_midpoint) (snd center) in
         let is_west := Qltb (fst edge_midpoint) (fst center) in
         let is_east := Qgtb (fst edge_midpoint) (fst center) in
         let expansion_y := 0 in
         let expansion_x := 0 in
         let expansion_y := if is_north then expansion_y - exp_north else expansion_y in
         let expansion_y := if is_south then expansion_y + exp_south else expansion_y in
         let expansion_x := if is_west then expansion_x - exp_west else expansion_x in
         let expansion_x := if is_east then expansion_x + exp_east else expansion_x in
         let normal := normal_or_self v1 v2 in
         let expansion_magnitude := expansion_x * fst normal + expansion_y * snd normal in
         let offset := pscale normal expansion_magnitude in
         (padd v1 offset, padd v2 offset))
      (seq 0 n).

Definition expand_polygon_directional (obstacle : Obstacle)
  : result (option ExpandedBoundary) :=
  let obstacle_type := o_type obstacle in
  if negb (type_is obstacle "triangle" || type_is obstacle "pentagon"
           || type_is obstacle "hexagon")
  then Raise ValueError
  else
    let x := o_x obstacle in
    let y := o_y obstacle in
    let width := o_width obstacle in
    let height := o_height obstacle in
    let rotation := get (o_rotation obstacle) 0 in
    let directional_exp := get (o_directional_expansion obstacle) no_directions in
    let exp_north := get (north directional_exp) 0 in
    let exp_south := get (south directional_exp) 0 in
    let exp_east := get (east directional_exp) 0 in
    let exp_west := get (west directional_exp) 0 in
    if all_zero exp_north exp_south exp_east exp_west then Ok None
    else
      match _get_local_vertices_for_type obstacle_type width height with
      | Raise e => Raise e
      | Ok local_vertices =>
          let center := centroid local_vertices in
          let expanded_vertices :=
            directional_edges local_vertices center exp_north exp_south exp_east exp_west in
          let final_vertices := intersect_adjacent expanded_vertices in
          let final_vertices :=
            if negb (Qeq_bool rotation 0)
            then rotate_about center rotation final_vertices
            else final_vertices in
          let world_vertices := map (fun v => padd v (x, y)) final_vertices in
          Ok (Some (apply_method obstacle world_vertices exp_north exp_south exp_east exp_west))
      end.

(** The [try] block of [expand_obstacle]. *)
Definition expand_with_method (obstacle : Obstacle) (use_convex_hull : bool)
    (method : string) : M ExpandedBoundary :=
  (self <- get_self ;;
   vertices <- lift (_obstacle_to_vertices obstacle) ;;
   let vertices := if use_convex_hull then _compute_convex_hull vertices else vertices in
   if String.eqb method METHOD_PRESERVE_SHAPE then
     ret (Polygon (expand_polygon_preserve_shape self vertices))
   else if String.eqb method METHOD_CONVEX then
     ret (Polygon (expand_polygon_convex self vertices))
   else if String.eqb method METHOD_GENERALIZED then
     let '(edges, centers, radius) := expand_polygon_generalized self vertices in
     ret (Arcs edges centers radius)
   else raise ValueError)%expander.

(** [expand_obstacle] from the comment "Original expansion logic
    continues" to its end. *)
Definition expand_uniform (obstacle : Obstacle) (method : option string)
    (force_convex_hull_arg : option bool) : M (option ExpandedBoundary) :=
  (self <- get_self ;;
   let expansion_dist := get (o_expansion_distance obstacle) (d_exp self) in
   if Qle_bool expansion_dist 0 then ret None
   else
     let old_distance := d_exp self in
     set_d_exp expansion_dist ;;;
     let use_convex_hull := get force_convex_hull_arg (force_convex_hull self) in
     let use_convex_hull := get (o_force_convex_hull obstacle) use_convex_hull in
     let method := get method (get (o_expansion_method obstacle) METHOD_GENERALIZED) in
     result <- try_finally (expand_with_method obstacle use_convex_hull method)
                           (set_d_exp old_distance) ;;
     ret (Some result))%expander.

Definition expand_obstacle (obstacle : Obstacle) (method : option string)
    (force_convex_hull_arg : option bool) : M (option ExpandedBoundary) :=
  let continue := expand_uniform obstacle method force_convex_hull_arg in
  if get (o_use_directional_expansion obstacle) false then
    let directional_exp := get (o_directional_expansion obstacle) no_directions in
    let exp_north := get (north directional_exp) 0 in
    let exp_south := get (south directional_exp) 0 in
    let exp_east := get (east directional_exp) 0 in
    let exp_west := get (west directional_exp) 0 in
    if any_positive exp_north exp_south exp_east exp_west then
      if type_is obstacle "rectangle" then lift (expand_rectangle_directional obstacle)
      else if type_is obstacle "triangle" || type_is obstacle "pentagon"
              || type_is obstacle "hexagon"
      then lift (expand_polygon_directional obstacle)
      else continue
    else continue
  else continue.

(** ** Qt geometry

    [QPolygonF], [QRectF] and [QPainterPath] as the detector uses them.  A
    path holds the vertices of its one subpath, closed implicitly, and
    [intersects] has the meaning Qt documents: the two paths meet at a
    point, or one contains the other (even-odd fill). *)

(** [left, top, right, bottom]. *)
Definition QRectF : Type := (Q * Q * Q * Q)%type.

Definition QPainterPath : Type := list point.

Definition boundingRect (polygon : list point) : QRectF :=
  match polygon with
  | [] => (0, 0, 0, 0)
  | p :: rest =>
      fold_left (fun '(l, t, r, b) q =>
                   (Qmin l (fst q), Qmin t (snd q), Qmax r (fst q), Qmax b (snd q)))
                rest (fst p, snd p, fst p, snd p)
  end.

Definition adjust (rect : QRectF) (dx1 dy1 dx2 dy2 : Q) : QRectF :=
  let '(l, t, r, b) := rect in (l + dx1, t + dy1, r + dx2, b + dy2).

Definition addRect (rect : QRectF) : QPainterPath :=
  let '(l, t, r, b) := rect in [(l, t); (r, t); (r, b); (l, b)].

Definition addPolygon (polygon : list point) : QPainterPath := polygon.

(** Twice the signed area of the triangle [a b c]. *)
Definition turn (a b c : point) : Q :=
  (fst b - fst a) * (snd c - snd a) - (snd b - snd a) * (fst c - fst a).

Definition within_box (a b c : point) : bool :=
  Qle_bool (Qmin (fst a) (fst b)) (fst c) && Qle_bool (fst c) (Qmax (fst a) (fst b))
  && Qle_bool (Qmin (snd a) (snd b)) (snd c) && Qle_bool (snd c) (Qmax (snd a) (snd b)).

(** The closed segments [a b] and [c d] have a common point. *)
Definition segments_meet (ab cd : point * point) : bool :=
  let '(a, b) := ab in
  let '(c, d) := cd in
  let d1 := turn c d a in
  let d2 := turn c d b in
  let d3 := turn a b c in
  let d4 := turn a b d in
  (Qltb (d1 * d2) 0 && Qltb (d3 * d4) 0)
  || (Qeq_bool d1 0 && within_box c d a)
  || (Qeq_bool d2 0 && within_box c d b)
  || (Qeq_bool d3 0 && within_box a b c)
  || (Qeq_bool d4 0 && within_box a b d).

(** Even-odd rule: a ray from [p] towards larger [x] crosses the side
    [a b]. *)
Definition ray_crosses (p : point) (ab : point * point) : bool :=
  let '(a, b) := ab in
  negb (Bool.eqb (Qgtb (snd a) (snd p)) (Qgtb (snd b) (snd p)))
  && Qltb (fst p) ((fst b - fst a) * (snd p - snd a) / (snd b - snd a) + fst a).

Definition path_contains (path : QPainterPath) (p : point) : bool :=
  fold_left xorb (map (ray_crosses p) (sides path)) false.

Definition intersects (path other : QPainterPath) : bool :=
  match path, other with
  | [], _ | _, [] => false
  | _, _ =>
      existsb (fun e => existsb (segments_meet e) (sides other)) (sides path)
      || existsb (path_contains path) other
      || existsb (path_contains other) path
  end.

(** ** The collision detector *)

Record CollisionDetector : Type := {
  min_spacing : Q
}.

Definition COLLISION_BOX_MIN_GAP : Q := 20.

Definition get_obstacle_vertices (obstacle : Obstacle) : list point :=
  let obstacle_type := get (o_type obstacle) "rectangle"%string in
  let x := o_x obstacle in
  let y := o_y obstacle in
  let width := o_width obstacle in
  let height := o_height obstacle in
  let rotation := get (o_rotation obstacle) 0 in
  let regular (sides_count : nat) :=
    let cx := width / 2 in
    let cy := height / 2 in
    let radius := Qmin width height / 2 in
    map (fun i =>
           let angle := - pi / 2
                        + 2 * pi * inject_Z (Z.of_nat i) / inject_Z (Z.of_nat sides_count) in
           (cx + radius * cos angle, cy + radius * sin angle))
        (seq 0 sides_count) in
  let local_vertices :=
    if String.eqb obstacle_type "rectangle" then rectangle_vertices width height
    else if String.eqb obstacle_type "triangle" then triangle_vertices width height
    else if String.eqb obstacle_type "pentagon" then regular 5%nat
    else if String.eqb obstacle_type "hexagon" then regular 6%nat
    else
      match String.eqb obstacle_type "custom_polygon", o_points obstacle with
      | true, Some pts => pts
      | _, _ => rectangle_vertices width height
      end in
  let local_vertices :=
    if negb (Qeq_bool rotation 0)
    then rotate_about (width / 2, height / 2) rotation local_vertices
    else local_vertices in
  map (fun v => padd v (x, y)) local_vertices.

Definition num_samples : nat := 5.

(** The inner loop of [get_expanded_vertices]: [j] runs over
    [range(1, num_samples)]. *)
Definition arc_points (center : point) (radius angle1 angle2 : Q) : list point :=
  map (fun j =>
         let t := inject_Z (Z.of_nat j) / inject_Z (Z.of_nat num_samples) in
         let angle := angle1 + t * (angle2 - angle1) in
         (fst center + radius * cos angle, snd center + radius * sin angle))
      (seq 1 (num_samples - 1)).

(** The outer loop of [get_expanded_vertices]. *)
Definition approximate_arcs (edges : list (point * point)) (arc_centers : list point)
    (radius : Q) : list point :=
  flat_map (fun i =>
              let edge := edge_at edges i in
              let center := vertex_at arc_centers ((i + 1) mod length arc_centers) in
              let edge_end := snd edge in
              let next_edge_start := fst (edge_at edges ((i + 1) mod length edges)) in
              let angle1 := atan2 (snd edge_end - snd center) (fst edge_end - fst center) in
              let angle2 := atan2 (snd next_edge_start - snd center)
                                  (fst next_edge_start - fst center) in
              fst edge :: arc_points center radius angle1 angle2)
           (seq 0 (length edges)).

(** [get_expanded_vertices].  Every exception is caught and gives [None];
    so does a value that the tuple assignment cannot unpack, and the
    division by [len(arc_centers)] when that is zero. *)
Definition get_expanded_vertices (obstacle : Obstacle) : option (list point) :=
  let expansion_dist := get (o_expansion_distance obstacle) 0 in
  if Qle_bool expansion_dist 0 then None
  else
    let expander := {| d_exp := expansion_dist; force_convex_hull := false |} in
    let method := get (o_expansion_method obstacle) METHOD_GENERALIZED in
    match fst (expand_obstacle obstacle (Some method) None expander) with
    | Raise _ => None
    | Ok None => None
    | Ok (Some (Polygon [])) => None
    | Ok (Some expanded_data) =>
        if String.eqb method METHOD_GENERALIZED then
          match expanded_data with
          | Arcs edges arc_centers radius =>
              if (length arc_centers =? 0)%nat && negb (length edges =? 0)%nat then None
              else Some (approximate_arcs edges arc_centers radius)
          | Polygon _ => None
          end
        else
          match expanded_data with
          | Polygon vertices => Some vertices
          | Arcs _ _ _ => None
          end
    end.

Definition _check_polygon_overlap (vertices1 vertices2 : list point) (spacing : Q) : bool :=
  let polygon1 := vertices1 in
  let path1 := addPolygon polygon1 in
  let path1_expanded :=
    if Qgtb spacing 0 then
      let rect1 := boundingRect polygon1 in
      let rect1 := adjust rect1 (- spacing) (- spacing) spacing spacing in
      addRect rect1
    else path1 in
  let polygon2 := vertices2 in
  let path2 := addPolygon polygon2 in
  intersects path1_expanded path2 || intersects path2 path1_expanded.

(** The truth value of what [get_expanded_vertices] returned. *)
Definition truthy (vertices : option (list point)) : bool :=
  match vertices with
  | Some (_ :: _) => true
  | _ => false
  end.

(** The body of the loop of [check_overlap], for one [existing]: [true]
    where the loop returns [True]. *)
Definition overlaps_existing (self : CollisionDetector) (obstacle existing : Obstacle) : bool :=
  let vertices1_original := get_obstacle_vertices obstacle in
  let vertices2_original := get_obstacle_vertices existing in
  if _check_polygon_overlap vertices1_original vertices2_original (min_spacing self) then true
  else
    let expansion1 := get (o_expansion_distance obstacle) 0 in
    let expansion2 := get (o_expansion_distance existing) 0 in
    if Qgtb expansion1 0 && Qgtb expansion2 0
       && (let vertices1_expanded := get_expanded_vertices obstacle in
           let vertices2_expanded := get_expanded_vertices existing in
           truthy vertices1_expanded && truthy vertices2_expanded
           && _check_polygon_overlap (get vertices1_expanded []) (get vertices2_expanded [])
                                     COLLISION_BOX_MIN_GAP)
    then true
    else if Qgtb expansion1 0
            && (let vertices1_expanded := get_expanded_vertices obstacle in
                truthy vertices1_expanded
                && _check_polygon_overlap (get vertices1_expanded []) vertices2_original
                                          (min_spacing self))
    then true
    else if Qgtb expansion2 0
            && (let vertices2_expanded := get_expanded_vertices existing in
                truthy vertices2_expanded
                && _check_polygon_overlap vertices1_original (get vertices2_expanded [])
                                          (min_spacing self))
    then true
    else false.

(** [check_overlap].  An element of [obstacles_list] is a reference to a
    dictionary: its address and what it holds; [existing is exclude]
    compares addresses. *)
Fixpoint check_overlap (self : CollisionDetector) (obstacle : Obstacle)
    (obstacles_list : list (nat * Obstacle)) (exclude : option nat) : bool :=
  match obstacles_list with
  | [] => false
  | (address, existing) :: rest =>
      let excluded :=
        match exclude with
        | Some a => (address =? a)%nat
        | None => false
        end in
      if excluded then check_overlap self obstacle rest exclude
      else if overlaps_existing self obstacle existing then true
      else check_overlap self obstacle rest exclude
  end.

End Engine.

(** ** Authoring-time checks *)

Definition orientation (p q r : point) : nat :=
  let val := (snd q - snd p) * (fst r - fst q) - (fst q - fst p) * (snd r - snd p) in
  if Qeq_bool val 0 then 0%nat
  else if Qgtb val 0 then 1%nat else 2%nat.

Definition on_segment (p q r : point) : bool :=
  Qle_bool (fst q) (Qmax (fst p) (fst r)) && Qgeb (fst q) (Qmin (fst p) (fst r))
  && Qle_bool (snd q) (Qmax (snd p) (snd r)) && Qgeb (snd q) (Qmin (snd p) (snd r)).

Definition segments_intersect (p1 p2 p3 p4 : point) : bool :=
  let o1 := orientation p1 p2 p3 in
  let o2 := orientation p1 p2 p4 in
  let o3 := orientation p3 p4 p1 in
  let o4 := orientation p3 p4 p2 in
  if negb (o1 =? o2)%nat && negb (o3 =? o4)%nat then true
  else if (o1 =? 0)%nat && on_segment p1 p3 p2 then true
  else if (o2 =? 0)%nat && on_segment p1 p4 p2 then true
  else if (o3 =? 0)%nat && on_segment p3 p1 p4 then true
  else if (o4 =? 0)%nat && on_segment p3 p2 p4 then true
  else false.

Definition check_new_edge_intersection (existing_points : list point) (new_point : point)
  : bool :=
  let len := length existing_points in
  if (len <? 2)%nat then false
  else
    let last_point := vertex_at existing_points (len - 1) in
    if existsb (fun i =>
                  let edge_start := vertex_at existing_points i in
                  let edge_end := vertex_at existing_points (i + 1) in
                  segments_intersect last_point new_point edge_start edge_end)
               (seq 0 (len - 1))
    then true
    else if (2 <=? len)%nat
            && (let first_point := vertex_at existing_points 0 in
                existsb (fun i =>
                           let edge_start := vertex_at existing_points i in
                           let edge_end := vertex_at existing_points (i + 1) in
                           segments_intersect new_point first_point edge_start edge_end)
                        (seq 1 (len - 1 - 1)))
    then true
    else false.

(** ** The other methods of the two classes *)

(** [get_expansion_method_name]: a dictionary lookup with a default. *)
Definition get_expansion_method_name (method : string) : string :=
  if String.eqb method METHOD_PRESERVE_SHAPE then "Maintain Shape"
  else if String.eqb method METHOD_CONVEX then "Convex Hull"
  else if String.eqb method METHOD_GENERALIZED then "Generalized (Arcs)"
  else "Unknown".

Definition get_all_methods : list string :=
  [METHOD_GENERALIZED; METHOD_PRESERVE_SHAPE; METHOD_CONVEX].

Definition set_expansion_distance (distance : Q) : M unit :=
  fun self => (Ok tt, {| d_exp := distance; force_convex_hull := force_convex_hull self |}).

Definition set_force_convex_hull (force : bool) : M unit :=
  fun self => (Ok tt, {| d_exp := d_exp self; force_convex_hull := force |}).

(** An entry of the list that [expand_all_obstacles] returns. *)
Record ExpandedEntry : Type := {
  original : Obstacle;
  expanded : ExpandedBoundary;
  entry_method : string
}.

(** The handler of [expand_all_obstacles] calls [api_core.log], and the
    module binds no name [api_core]: the handler itself raises. *)
Inductive NameError : Type :=
| name_not_defined (name : string).

(** The truth value of [method] in [method or ...]. *)
Definition method_or (method : option string) (default : string) : string :=
  match method with
  | Some m => if String.eqb m "" then default else m
  | None => default
  end.

Section Callers.

Context {ext : External}.

(** The loop of [expand_all_obstacles], with the list [expanded] built so
    far. *)
Fixpoint expand_all_loop (obstacles_list : list Obstacle) (method : option string)
    (expanded_so_far : list ExpandedEntry) (self : ObstacleExpander)
  : (list ExpandedEntry + NameError) * ObstacleExpander :=
  match obstacles_list with
  | [] => (inl expanded_so_far, self)
  | obstacle :: rest =>
      match expand_obstacle obstacle method None self with
      | (Ok expanded_data, self') =>
          let expanded_so_far :=
            match expanded_data with
            | Some data =>
                expanded_so_far
                ++ [{| original := obstacle;
                       expanded := data;
                       entry_method :=
                         method_or method
                           (get (o_expansion_method obstacle) METHOD_GENERALIZED) |}]
            | None => expanded_so_far
            end in
          expand_all_loop rest method expanded_so_far self'
      | (Raise _, self') => (inr (name_not_defined "api_core"), self')
      end
  end.

Definition expand_all_obstacles (obstacles_list : list Obstacle) (method : option string)
    (self : ObstacleExpander) : (list ExpandedEntry + NameError) * ObstacleExpander :=
  expand_all_loop obstacles_list method [] self.

(** [QPolygonF.containsPoint] with [Qt.OddEvenFill]. *)
Definition containsPoint (polygon : list point) (pos : point) : bool :=
  path_contains polygon pos.

Definition point_in_obstacle (pos : point) (obstacle : Obstacle) : bool :=
  containsPoint (get_obstacle_vertices obstacle) pos.

(** [get_obstacle_at_position]: the scan of [reversed(obstacles_list)]. *)
Definition get_obstacle_at_position (pos : point) (obstacles_list : list Obstacle)
  : option Obstacle :=
  find (point_in_obstacle pos) (rev obstacles_list).

End Callers.

(** [check_polygon_self_intersection]: the pairs [(i, j)] in the order in
    which the two loops append them. *)
Definition check_polygon_self_intersection (points : list point)
  : bool * list (nat * nat) :=
  if (length points <? 3)%nat then (false, [])
  else
    let n := length points in
    let crossing_indices :=
      flat_map
        (fun i =>
           flat_map
             (fun j =>
                if (j =? n - 1)%nat && (i =? 0)%nat then []
                else
                  let p1 := vertex_at points i in
                  let p2 := vertex_at points ((i + 1) mod n) in
                  let p3 := vertex_at points j in
                  let p4 := vertex_at points ((j + 1) mod n) in
                  if segments_intersect p1 p2 p3 p4 then [(i, j)] else [])
             (seq (i + 2) (n - (i + 2))))
        (seq 0 n) in
    ((0 <? length crossing_indices)%nat, crossing_indices).

(** ** Grid snapping

    [round], as Python applies it to a float: to the nearest integer, a
    tie to the even one. *)
Definition py_round (q : Q) : Z :=
  let f := Qfloor q in
  let rest := q - inject_Z f in
  if Qltb rest (1 # 2) then f
  else if Qltb (1 # 2) rest then (f + 1)%Z
  else if Z.even f then f else (f + 1)%Z.

(** [utils.snap_to_grid].  The division raises [ZeroDivisionError] on a
    grid of size zero: [None]. *)
Definition snap_to_grid (value grid_size : Q) : option Q :=
  if Qeq_bool grid_size 0 then None
  else Some (inject_Z (py_round (value / grid_size)) * grid_size).

(** [utils.clamp]. *)
Definition clamp (value min_value max_value : Q) : Q :=
  Qmax min_value (Qmin value max_value).

(** ** The polygon editor

    [PolygonEditor.py], without the painting.  [None] where a method
    raises [ZeroDivisionError], which it does on a grid of size zero.
    The obstacle that [create_obstacle] returns carries a colour besides;
    the engine does not read it. *)

(** [int], as Python applies it to a float: towards zero. *)
Definition py_int (q : Q) : Z :=
  if Qltb q 0 then Qceiling q else Qfloor q.

(** [min] and [max] of the values a generator yields. *)
Definition minimum (values : list Q) : Q :=
  match values with
  | [] => 0
  | first :: rest => fold_left Qmin rest first
  end.

Definition maximum (values : list Q) : Q :=
  match values with
  | [] => 0
  | first :: rest => fold_left Qmax rest first
  end.

Module Editor.

Record PolygonEditor : Type := {
  points : list point;
  is_drawing : bool;
  preview_point : option point;
  grid_size : Q
}.

(** [PolygonEditor(grid_size)]. *)
Definition init (grid_size : Q) : PolygonEditor :=
  {| points := []; is_drawing := false; preview_point := None; grid_size := grid_size |}.

Definition start_drawing (self : PolygonEditor) : PolygonEditor :=
  {| points := []; is_drawing := true; preview_point := None;
     grid_size := grid_size self |}.

Definition snap_point_to_grid (self : PolygonEditor) (p : point) : option point :=
  if Qeq_bool (grid_size self) 0 then None
  else
    let x := inject_Z (py_round (fst p / grid_size self)) * grid_size self in
    let y := inject_Z (py_round (snd p / grid_size self)) * grid_size self in
    Some (x, y).

(** [add_point]: the value returned and the editor afterwards. *)
Definition add_point (p : point) (self : PolygonEditor) : option (bool * PolygonEditor) :=
  if negb (is_drawing self) then Some (false, self)
  else
    match snap_point_to_grid self p with
    | None => None
    | Some snapped_point =>
        Some (true,
              {| points := points self ++ [snapped_point];
                 is_drawing := is_drawing self;
                 preview_point := preview_point self;
                 grid_size := grid_size self |})
    end.

Definition can_finish (self : PolygonEditor) : bool :=
  (3 <=? length (points self))%nat.

Definition cancel_drawing (self : PolygonEditor) : PolygonEditor :=
  {| points := []; is_drawing := false; preview_point := None;
     grid_size := grid_size self |}.

Definition get_point_count (self : PolygonEditor) : nat := length (points self).

Section Cleaning.

Context {ext : External}.

(** [(dx * dx + dy * dy) ** 0.5] for [dx], [dy] from [b] to [a]. *)
Definition distance (a b : point) : Q :=
  let dx := fst a - fst b in
  let dy := snd a - snd b in
  sqrt (dx * dx + dy * dy).

(** The loop of [_remove_duplicate_points], for one [points[i]]. *)
Definition keep_if_far (tolerance : Q) (cleaned : list point) (p : point) : list point :=
  if Qgtb (distance p (last cleaned (0, 0))) tolerance then cleaned ++ [p] else cleaned.

Definition _remove_duplicate_points (self : PolygonEditor) (points : list point)
  : list point :=
  if (length points <? 2)%nat then points
  else
    let cleaned := [vertex_at points 0] in
    let tolerance := grid_size self / 2 in
    let cleaned := fold_left (keep_if_far tolerance) (skipn 1 points) cleaned in
    if (1 <? length cleaned)%nat then
      if Qltb (distance (last cleaned (0, 0)) (vertex_at cleaned 0)) tolerance
      then removelast cleaned
      else cleaned
    else cleaned.

Definition create_obstacle (self : PolygonEditor) : option Obstacle :=
  if negb (can_finish self) then None
  else if (length (points self) =? 0)%nat then None
  else
    let cleaned_points := _remove_duplicate_points self (points self) in
    if (length cleaned_points <? 3)%nat then None
    else
      let min_x := minimum (map fst cleaned_points) in
      let min_y := minimum (map snd cleaned_points) in
      let max_x := maximum (map fst cleaned_points) in
      let max_y := maximum (map snd cleaned_points) in
      let width := max_x - min_x in
      let height := max_y - min_y in
      if Qltb width 10 || Qltb height 10 then None
      else
        let local_points := map (fun p => (fst p - min_x, snd p - min_y)) cleaned_points in
        Some {| o_type := Some "custom_polygon"%string;
                o_x := inject_Z (py_int min_x);
                o_y := inject_Z (py_int min_y);
                o_width := inject_Z (py_int width);
                o_height := inject_Z (py_int height);
                o_rotation := Some 0;
                o_can_rotate := Some false;
                o_points := Some local_points;
                o_expansion_distance := None;
                o_expansion_method := None;
                o_use_directional_expansion := None;
                o_directional_expansion := None;
                o_force_convex_hull := None |}.

End Cleaning.

End Editor.

(** ** A reference library

    Rational stand-ins for the library functions, with which the model
    runs: a square root that is exact on squares of rationals and
    truncated elsewhere, low-order series for the trigonometric functions,
    and the convex hull by monotone chain (counter-clockwise, from the
    leftmost point). *)

Module Reference.

Definition sqrt (q : Q) : Q :=
  if Qle_bool q 0 then 0
  else
    let scale := (2 ^ 32)%Z in
    Qred (Qmake (Z.sqrt (Qnum q * Zpos (Qden q) * scale * scale))
                (Qden q * Z.to_pos scale)).

Definition pi : Q := 3141592653589793 # 1000000000000000.

Definition cos (a : Q) : Q :=
  let a2 := Qred (a * a) in
  Qred (1 - a2 / 2 + a2 * a2 / 24 - a2 * a2 * a2 / 720 + a2 * a2 * a2 * a2 / 40320).

Definition sin (a : Q) : Q :=
  let a2 := Qred (a * a) in
  Qred (a * (1 - a2 / 6 + a2 * a2 / 120 - a2 * a2 * a2 / 5040)).

Definition atan_unit (z : Q) : Q :=
  let z2 := Qred (z * z) in
  Qred (z * (1 - z2 / 3 + z2 * z2 / 5 - z2 * z2 * z2 / 7)).

Definition atan (z : Q) : Q :=
  if Qle_bool (Qabs z) 1 then atan_unit z
  else if Qltb 0 z then pi / 2 - atan_unit (/ z)
  else - pi / 2 - atan_unit (/ z).

Definition atan2 (y x : Q) : Q :=
  if Qltb 0 x then atan (y / x)
  else if Qltb x 0 then
    if Qle_bool 0 y then atan (y / x) + pi else atan (y / x) - pi
  else if Qltb 0 y then pi / 2
  else if Qltb y 0 then - pi / 2
  else 0.

Definition lex_le (p q : point) : bool :=
  Qltb (fst p) (fst q) || (Qeq_bool (fst p) (fst q) && Qle_bool (snd p) (snd q)).

Fixpoint insert (ip : nat * point) (sorted : list (nat * point)) : list (nat * point) :=
  match sorted with
  | [] => [ip]
  | jq :: rest => if lex_le (snd ip) (snd jq) then ip :: sorted else jq :: insert ip rest
  end.

Definition indexed (pts : list point) : list (nat * point) :=
  combine (seq 0 (length pts)) pts.

Fixpoint pop_turns (p : point) (stack : list (nat * point)) : list (nat * point) :=
  match stack with
  | b :: ((a :: _) as rest) =>
      if Qle_bool (turn (snd a) (snd b) p) 0 then pop_turns p rest else stack
  | _ => stack
  end.

Definition half_hull (sorted : list (nat * point)) : list (nat * point) :=
  rev (fold_left (fun stack ip => ip :: pop_turns (snd ip) stack) sorted []).

Definition ConvexHull (pts : list point) : option (list nat) :=
  let sorted := fold_right insert [] (indexed pts) in
  let hull := removelast (half_hull sorted) ++ removelast (half_hull (rev sorted)) in
  if (length hull <? 3)%nat then None else Some (map fst hull).

Definition library : External :=
  Build_External sqrt cos sin atan2 pi ConvexHull.

End Reference.

(** ** Notions used in the statements *)

(** [x1 * y2 - x2 * y1] for two points, and its sum along a path. *)
Definition cross (p q : point) : Q := fst p * snd q - fst q * snd p.

Fixpoint chain (path : list point) : Q :=
  match path with
  | p :: (q :: _) as rest => cross p q + chain rest
  | _ => 0
  end.

Definition Qsum (terms : list Q) : Q := fold_right Qplus 0 terms.

Definition edge_eq (e f : point * point) : Prop :=
  pt_eq (fst e) (fst f) /\ pt_eq (snd e) (snd f).

(** The five kinds of the data model. *)
Definition known_kind (kind : string) : bool :=
  String.eqb kind "rectangle" || String.eqb kind "triangle" || String.eqb kind "pentagon"
  || String.eqb kind "hexagon" || String.eqb kind "custom_polygon".

Definition with_type (obstacle : Obstacle) (kind : option string) : Obstacle :=
  {| o_type := kind;
     o_x := o_x obstacle; o_y := o_y obstacle;
     o_width := o_width obstacle; o_height := o_height obstacle;
     o_rotation := o_rotation obstacle; o_can_rotate := o_can_rotate obstacle;
     o_points := o_points obstacle;
     o_expansion_distance := o_expansion_distance obstacle;
     o_expansion_method := o_expansion_method obstacle;
     o_use_directional_expansion := o_use_directional_expansion obstacle;
     o_directional_expansion := o_directional_expansion obstacle;
     o_force_convex_hull := o_force_convex_hull obstacle |}.

(** The obstacle without the keys of directional expansion. *)
Definition without_directional (obstacle : Obstacle) : Obstacle :=
  {| o_type := o_type obstacle;
     o_x := o_x obstacle; o_y := o_y obstacle;
     o_width := o_width obstacle; o_height := o_height obstacle;
     o_rotation := o_rotation obstacle; o_can_rotate := o_can_rotate obstacle;
     o_points := o_points obstacle;
     o_expansion_distance := o_expansion_distance obstacle;
     o_expansion_method := o_expansion_method obstacle;
     o_use_directional_expansion := None;
     o_directional_expansion := None;
     o_force_convex_hull := o_force_convex_hull obstacle |}.

(** The directional distances as [expand_obstacle] reads them. *)
Definition directions (obstacle : Obstacle) : Q * Q * Q * Q :=
  let directional_exp := get (o_directional_expansion obstacle) no_directions in
  (get (north directional_exp) 0, get (south directional_exp) 0,
   get (east directional_exp) 0, get (west directional_exp) 0).

(** [expand_obstacle] hands the obstacle to a directional method. *)
Definition directional_applies (obstacle : Obstacle) : bool :=
  let '(n, s, e, w) := directions obstacle in
  get (o_use_directional_expansion obstacle) false
  && any_positive n s e w
  && (type_is obstacle "rectangle" || type_is obstacle "triangle"
      || type_is obstacle "pentagon" || type_is obstacle "hexagon").

(** The crossing test in the words of the specification: the candidate
    edge from the last point to the new point, and the one from the new
    point to the first point when there are two points or more, each
    against the placed edges that share no endpoint with it. *)
Definition would_create_crossing (existing_points : list point) (new_point : point) : bool :=
  let len := length existing_points in
  let last_point := vertex_at existing_points (len - 1) in
  let first_point := vertex_at existing_points 0 in
  let placed i := (vertex_at existing_points i, vertex_at existing_points (i + 1)) in
  ((1 <=? len)%nat
   && existsb (fun i => segments_intersect last_point new_point (fst (placed i)) (snd (placed i)))
              (seq 0 (len - 2)))
  || ((2 <=? len)%nat
      && existsb (fun i => segments_intersect new_point first_point
                             (fst (placed i)) (snd (placed i)))
                 (seq 1 (len - 2))).

(** An edge moved along a normal, as the offsetting loops move it. *)
Definition offset_edge (normal : point) (distance : Q) (e : point * point) : point * point :=
  (padd (fst e) (pscale normal distance), padd (snd e) (pscale normal distance)).

(** The intersection that the mitered method takes of two offset edges. *)
Definition meet {ext : External} (e f : point * point) : point :=
  _line_intersection (fst e) (snd e) (fst f) (snd f).

(** The point that [get_expanded_vertices] puts at the fraction [t] of
    the arc between the end of edge [i] and the start of the next edge. *)
Definition arc_sample {ext : External} (edges : list (point * point))
    (arc_centers : list point) (radius : Q) (i : nat) (t : Q) : point :=
  let edge := edge_at edges i in
  let center := vertex_at arc_centers ((i + 1) mod length arc_centers) in
  let edge_end := snd edge in
  let next_edge_start := fst (edge_at edges ((i + 1) mod length edges)) in
  let angle1 := atan2 (snd edge_end - snd center) (fst edge_end - fst center) in
  let angle2 := atan2 (snd next_edge_start - snd center) (fst next_edge_start - fst center) in
  let angle := angle1 + t * (angle2 - angle1) in
  (fst center + radius * cos angle, snd center + radius * sin angle).

(** ** Obstacles of the examples *)

Definition shape (kind : string) (x y width height : Q) : Obstacle :=
  {| o_type := Some kind; o_x := x; o_y := y; o_width := width; o_height := height;
     o_rotation := Some 0; o_can_rotate := None; o_points := None;
     o_expansion_distance := Some 0; o_expansion_method := Some METHOD_GENERALIZED;
     o_use_directional_expansion := None; o_directional_expansion := None;
     o_force_convex_hull := None |}.

Definition with_expansion (obstacle : Obstacle) (distance : Q) (method : string) : Obstacle :=
  {| o_type := o_type obstacle;
     o_x := o_x obstacle; o_y := o_y obstacle;
     o_width := o_width obstacle; o_height := o_height obstacle;
     o_rotation := o_rotation obstacle; o_can_rotate := o_can_rotate obstacle;
     o_points := o_points obstacle;
     o_expansion_distance := Some distance;
     o_expansion_method := Some method;
     o_use_directional_expansion := o_use_directional_expansion obstacle;
     o_directional_expansion := o_directional_expansion obstacle;
     o_force_convex_hull := o_force_convex_hull obstacle |}.

Definition with_directions (obstacle : Obstacle) (n s e w : Q) : Obstacle :=
  {| o_type := o_type obstacle;
     o_x := o_x obstacle; o_y := o_y obstacle;
     o_width := o_width obstacle; o_height := o_height obstacle;
     o_rotation := o_rotation obstacle; o_can_rotate := o_can_rotate obstacle;
     o_points := o_points obstacle;
     o_expansion_distance := o_expansion_distance obstacle;
     o_expansion_method := o_expansion_method obstacle;
     o_use_directional_expansion := Some true;
     o_directional_expansion :=
       Some {| north := Some n; south := Some s; east := Some e; west := Some w |};
     o_force_convex_hull := o_force_convex_hull obstacle |}.

Definition with_points (obstacle : Obstacle) (pts : list point) : Obstacle :=
  {| o_type := o_type obstacle;
     o_x := o_x obstacle; o_y := o_y obstacle;
     o_width := o_width obstacle; o_height := o_height obstacle;
     o_rotation := o_rotation obstacle; o_can_rotate := Some false;
     o_points := Some pts;
     o_expansion_distance := o_expansion_distance obstacle;
     o_expansion_method := o_expansion_method obstacle;
     o_use_directional_expansion := o_use_directional_expansion obstacle;
     o_directional_expansion := o_directional_expansion obstacle;
     o_force_convex_hull := o_force_convex_hull obstacle |}.

(** The square of the testable properties: 100 by 100 at the origin. *)
Definition square_100 (method : string) : Obstacle :=
  with_expansion (shape "rectangle" 0 0 100 100) 10 method.

(** The sides of that square, in the order of its vertices. *)
Definition square_sides : list (point * point) :=
  [((0, 0), (100, 0)); ((100, 0), (100, 100)); ((100, 100), (0, 100)); ((0, 100), (0, 0))].

(** A 50 by 50 square with no expansion. *)
Definition square_50 (x y : Q) : Obstacle := shape "rectangle" x y 50 50.

(** A custom polygon of four points, base distance 10, in directional mode
    with north distance 5. *)
Definition custom_with_directions : Obstacle :=
  with_directions
    (with_points (with_expansion (shape "custom_polygon" 0 0 100 100) 10 METHOD_PRESERVE_SHAPE)
                 [(0, 0); (100, 0); (100, 100); (0, 100)])
    5 0 0 0.

(** [ObstacleExpander()] and [CollisionDetector()]. *)
Definition default_expander : ObstacleExpander :=
  {| d_exp := 0; force_convex_hull := false |}.

Definition default_detector : CollisionDetector := {| min_spacing := 5 |}.

(** ** More notions and examples *)

(** The polygon moved by the vector [v]. *)
Definition translate (v : point) (vertices : list point) : list point :=
  map (fun p => padd p v) vertices.

(** The methods that [expand_obstacle] knows. *)
Definition known_method (method : string) : bool :=
  existsb (String.eqb method) get_all_methods.

(** The one obstacle on which vertex extraction raises: a custom polygon
    with an empty list of points. *)
Definition empty_custom_polygon (obstacle : Obstacle) : bool :=
  String.eqb (get (o_type obstacle) "rectangle"%string) "custom_polygon"
  && match o_points obstacle with
     | Some [] => true
     | _ => false
     end.

Definition with_distance (obstacle : Obstacle) (distance : Q) : Obstacle :=
  {| o_type := o_type obstacle;
     o_x := o_x obstacle; o_y := o_y obstacle;
     o_width := o_width obstacle; o_height := o_height obstacle;
     o_rotation := o_rotation obstacle; o_can_rotate := o_can_rotate obstacle;
     o_points := o_points obstacle;
     o_expansion_distance := Some distance;
     o_expansion_method := o_expansion_method obstacle;
     o_use_directional_expansion := o_use_directional_expansion obstacle;
     o_directional_expansion := o_directional_expansion obstacle;
     o_force_convex_hull := o_force_convex_hull obstacle |}.

(** [existing is exclude]. *)
Definition is_excluded (exclude : option nat) (address : nat) : bool :=
  match exclude with
  | Some a => (address =? a)%nat
  | None => false
  end.

(** A 100 by 100 square that carries its own distance and its own convex
    hull setting. *)
Definition square_own_settings : Obstacle :=
  {| o_type := Some "rectangle"%string; o_x := 0; o_y := 0; o_width := 100; o_height := 100;
     o_rotation := Some 0; o_can_rotate := None; o_points := None;
     o_expansion_distance := Some 10; o_expansion_method := Some METHOD_PRESERVE_SHAPE;
     o_use_directional_expansion := None; o_directional_expansion := None;
     o_force_convex_hull := Some false |}.

(** The same square with no distance of its own. *)
Definition square_no_distance : Obstacle :=
  {| o_type := Some "rectangle"%string; o_x := 0; o_y := 0; o_width := 100; o_height := 100;
     o_rotation := Some 0; o_can_rotate := None; o_points := None;
     o_expansion_distance := None; o_expansion_method := Some METHOD_PRESERVE_SHAPE;
     o_use_directional_expansion := None; o_directional_expansion := None;
     o_force_convex_hull := None |}.

(** A 100 by 50 rectangle at (10, 20), in directional mode: north 5,
    east 3. *)
Definition rectangle_north_east : Obstacle :=
  with_directions (with_expansion (shape "rectangle" 10 20 100 50) 10 METHOD_PRESERVE_SHAPE)
                  5 0 3 0.

(** A custom polygon turned by 90 degrees that may not rotate. *)
Definition turned_custom_polygon : Obstacle :=
  {| o_type := Some "custom_polygon"%string; o_x := 0; o_y := 0;
     o_width := 100; o_height := 100;
     o_rotation := Some 90; o_can_rotate := Some false;
     o_points := Some [(0, 0); (100, 0); (0, 100)];
     o_expansion_distance := Some 0; o_expansion_method := Some METHOD_GENERALIZED;
     o_use_directional_expansion := None; o_directional_expansion := None;
     o_force_convex_hull := None |}.

(** [shorter] is [longer] with some elements left out. *)
Inductive subsequence {A : Type} : list A -> list A -> Prop :=
| subsequence_nil : subsequence [] []
| subsequence_skip (x : A) (shorter longer : list A) :
    subsequence shorter longer -> subsequence shorter (x :: longer)
| subsequence_keep (x : A) (shorter longer : list A) :
    subsequence shorter longer -> subsequence (x :: shorter) (x :: longer).

(** An editor in which a triangle has been drawn on a grid of size 20. *)
Definition editor_with_triangle : Editor.PolygonEditor :=
  {| Editor.points := [(0, 0); (100, 0); (0, 100)];
     Editor.is_drawing := true;
     Editor.preview_point := None;
     Editor.grid_size := 20 |}.

(** * Properties *)

(** ** Comparisons *)

Lemma Qltb_lt (a b : Q) : Qltb a b = true <-> a < b.
Proof.
  unfold Qltb. rewrite negb_true_iff, <- not_true_iff_false, Qle_bool_iff.
  split; [apply Qnot_le_lt | apply Qlt_not_le].
Qed.

Lemma Qltb_ge (a b : Q) : Qltb a b = false <-> b <= a.
Proof.
  unfold Qltb. rewrite negb_false_iff. apply Qle_bool_iff.
Qed.

#[export] Instance Qltb_Proper : Proper (Qeq ==> Qeq ==> eq) Qltb.
Proof.
  intros a a' Ha b b' Hb.
  destruct (Qltb a b) eqn:E, (Qltb a' b') eqn:E'; try reflexivity.
  - apply Qltb_lt in E. apply Qltb_ge in E'. rewrite Ha, Hb in E. lra.
  - apply Qltb_ge in E. apply Qltb_lt in E'. rewrite Ha, Hb in E. lra.
Qed.

(** ** Winding normalizer *)

Lemma cross_antisym (p q : point) : cross q p == - cross p q.
Proof. unfold cross. ring. Qed.

Lemma shoelace_term_cross (vertices : list point) (n i : nat) :
  shoelace_term vertices n i
  = cross (vertex_at vertices i) (vertex_at vertices ((i + 1) mod n)).
Proof.
  unfold shoelace_term, cross.
  destruct (vertex_at vertices i), (vertex_at vertices ((i + 1) mod n)); reflexivity.
Qed.

Lemma fold_left_Qsum (f : nat -> Q) (l : list nat) (a : Q) :
  fold_left (fun acc i => acc + f i) l a == a + Qsum (map f l).
Proof.
  revert a. induction l as [|i l IH]; intros a; simpl.
  - ring.
  - rewrite IH. ring.
Qed.

Lemma chain_cons (p q : point) (rest : list point) :
  chain (p :: q :: rest) = cross p q + chain (q :: rest).
Proof. reflexivity. Qed.

Lemma chain_snoc (path : list point) (p q : point) :
  chain (path ++ [p; q]) == chain (path ++ [p]) + cross p q.
Proof.
  induction path as [|a path IH].
  - simpl. ring.
  - destruct path as [|b path].
    + simpl. ring.
    + change (chain (a :: b :: (path ++ [p; q])) == chain (a :: b :: (path ++ [p])) + cross p q).
      rewrite !chain_cons. simpl app in IH. rewrite IH. ring.
Qed.

Lemma chain_rev (path : list point) : chain (rev path) == - chain path.
Proof.
  induction path as [|a path IH].
  - simpl. ring.
  - destruct path as [|b path].
    + simpl. ring.
    + rewrite chain_cons.
      change (rev (a :: b :: path)) with ((rev path ++ [b]) ++ [a]).
      rewrite <- app_assoc. simpl app.
      rewrite chain_snoc. change (rev path ++ [b]) with (rev (b :: path)).
      rewrite IH, (cross_antisym a b). ring.
Qed.

(** The shoelace loop from index [length before] on. *)
Lemma shoelace_from (first : point) (before : list point) (p : point) (after : list point) :
  vertex_at (before ++ p :: after) 0 = first ->
  Qsum (map (shoelace_term (before ++ p :: after) (length (before ++ p :: after)))
            (seq (length before) (length (p :: after))))
  == chain (p :: after ++ [first]).
Proof.
  revert before p. induction after as [|q after IH]; intros before p Hfirst.
  - simpl. rewrite shoelace_term_cross.
    replace ((length before + 1) mod length (before ++ [p]))%nat with 0%nat.
    + rewrite Hfirst. unfold vertex_at. rewrite nth_middle. ring.
    + rewrite length_app. simpl. rewrite Nat.Div0.mod_same. reflexivity.
  - cbn [length seq map Qsum fold_right].
    rewrite shoelace_term_cross.
    assert (Hlen : (length before + 1 < length (before ++ p :: q :: after))%nat)
      by (rewrite length_app; simpl; lia).
    rewrite (Nat.mod_small _ _ Hlen).
    assert (Hp : vertex_at (before ++ p :: q :: after) (length before) = p)
      by (unfold vertex_at; apply nth_middle).
    assert (Hq : vertex_at (before ++ p :: q :: after) (length before + 1) = q).
    { unfold vertex_at.
      change (before ++ p :: q :: after) with (before ++ [p] ++ q :: after).
      rewrite app_assoc.
      replace (length before + 1)%nat with (length (before ++ [p]))
        by (rewrite length_app; reflexivity).
      apply nth_middle. }
    rewrite Hp, Hq.
    change (before ++ p :: q :: after) with (before ++ [p] ++ q :: after) in *.
    rewrite app_assoc in *.
    specialize (IH (before ++ [p]) q Hfirst).
    rewrite (length_app before [p]) in IH. simpl length in IH.
    replace (length before + 1)%nat with (S (length before)) in IH by lia.
    rewrite IH. reflexivity.
Qed.

Lemma signed_area_chain (vertices : list point) :
  signed_area vertices == chain (vertices ++ firstn 1 vertices).
Proof.
  unfold signed_area. rewrite fold_left_Qsum.
  destruct vertices as [|p vertices].
  - simpl. ring.
  - rewrite (shoelace_from p [] p vertices eq_refl). simpl. ring.
Qed.

Lemma signed_area_rev (vertices : list point) :
  signed_area (rev vertices) == - signed_area vertices.
Proof.
  rewrite !signed_area_chain.
  destruct vertices as [|a vertices].
  - simpl. ring.
  - cbn [firstn]. rewrite <- chain_rev.
    rewrite rev_app_distr. cbn [rev app].
    destruct (rev vertices) as [|b middle] eqn:E.
    + reflexivity.
    + cbn [app firstn].
      change ((b :: middle ++ [a]) ++ [b]) with (b :: (middle ++ [a]) ++ [b]).
      rewrite <- app_assoc. cbn [app].
      change (b :: middle ++ [a; b]) with ((b :: middle) ++ [a; b]).
      rewrite chain_snoc.
      change (a :: b :: middle ++ [a]) with (a :: b :: (middle ++ [a])).
      rewrite chain_cons. simpl app. ring.
Qed.

Lemma ensure_ccw_cases (vertices : list point) :
  (0 < signed_area vertices /\ _ensure_counter_clockwise vertices = vertices)
  \/ (signed_area vertices <= 0 /\ _ensure_counter_clockwise vertices = rev vertices).
Proof.
  unfold _ensure_counter_clockwise, _is_counter_clockwise, Qgtb.
  destruct (Qltb 0 (signed_area vertices)) eqn:E; simpl.
  - left. split; [now apply Qltb_lt | reflexivity].
  - right. split; [now apply Qltb_ge | reflexivity].
Qed.

Lemma ensure_ccw_area (vertices : list point) :
  0 <= signed_area (_ensure_counter_clockwise vertices).
Proof.
  destruct (ensure_ccw_cases vertices) as [[H ->] | [H ->]].
  - lra.
  - rewrite signed_area_rev. lra.
Qed.




(** ** The expander *)

Section ExpanderProperties.

Context {ext : External}.

Lemma expand_with_method_state (obstacle : Obstacle) (use_convex_hull : bool)
    (method : string) (self : ObstacleExpander) :
  snd (expand_with_method obstacle use_convex_hull method self) = self.
Proof.
  unfold expand_with_method, bind, get_self, lift, ret, raise.
  destruct (_obstacle_to_vertices obstacle) as [vertices|e]; [|reflexivity].
  destruct (String.eqb method METHOD_PRESERVE_SHAPE); [reflexivity|].
  destruct (String.eqb method METHOD_CONVEX); [reflexivity|].
  destruct (String.eqb method METHOD_GENERALIZED); [|reflexivity].
  destruct (expand_polygon_generalized _ _) as [[edges centers] radius]. reflexivity.
Qed.

Lemma expand_uniform_state (obstacle : Obstacle) (method : option string)
    (force_convex_hull_arg : option bool) (self : ObstacleExpander) :
  snd (expand_uniform obstacle method force_convex_hull_arg self) = self.
Proof.
  unfold expand_uniform, bind, get_self, ret.
  destruct (Qle_bool _ 0); [reflexivity|].
  unfold set_d_exp at 1. unfold try_finally.
  match goal with
  | |- context [expand_with_method ?o ?u ?m ?s] =>
      pose proof (expand_with_method_state o u m s) as Hs;
      destruct (expand_with_method o u m s) as [r s']
  end.
  simpl in Hs. subst s'. destruct self as [d f].
  destruct r; reflexivity.
Qed.

Lemma expand_obstacle_state (obstacle : Obstacle) (method : option string)
    (force_convex_hull_arg : option bool) (self : ObstacleExpander) :
  snd (expand_obstacle obstacle method force_convex_hull_arg self) = self.
Proof.
  unfold expand_obstacle.
  repeat match goal with
         | |- context [if ?b then _ else _] => destruct b
         end;
    solve [reflexivity | apply expand_uniform_state].
Qed.

(** C10.  Whatever the obstacle, the method and the way the call ends,
    [expand_obstacle] leaves the expander as it found it; in particular
    [d_exp] has its value of before the call. *)
Theorem expand_obstacle_restores_d_exp (obstacle : Obstacle) (method : option string)
    (force_convex_hull_arg : option bool) (self : ObstacleExpander) :
  d_exp (snd (expand_obstacle obstacle method force_convex_hull_arg self)) = d_exp self
  /\ snd (expand_obstacle obstacle method force_convex_hull_arg self) = self.
Proof.
  rewrite expand_obstacle_state. split; reflexivity.
Qed.

(** The distance is in [self] while the [try] block runs: the radius of
    the arcs is the obstacle's distance, not the expander's. *)
Lemma expand_with_method_reads_d_exp (obstacle : Obstacle) (use_convex_hull : bool)
    (self : ObstacleExpander) (edges : list (point * point)) (centers : list point)
    (radius : Q) :
  fst (expand_with_method obstacle use_convex_hull METHOD_GENERALIZED self)
  = Ok (Arcs edges centers radius) ->
  radius = d_exp self.
Proof.
  unfold expand_with_method, bind, get_self, lift, ret.
  destruct (_obstacle_to_vertices obstacle) as [vertices|e]; [|discriminate].
  simpl. intros H. injection H as _ _ H. symmetry. exact H.
Qed.

Lemma expand_uniform_none (obstacle : Obstacle) (method : option string)
    (force_convex_hull_arg : option bool) (self : ObstacleExpander) :
  fst (expand_uniform obstacle method force_convex_hull_arg self) = Ok None
  <-> get (o_expansion_distance obstacle) (d_exp self) <= 0.
Proof.
  unfold expand_uniform, bind, get_self, ret.
  destruct (Qle_bool _ 0) eqn:E.
  - simpl. rewrite <- Qle_bool_iff. tauto.
  - unfold set_d_exp at 1. unfold try_finally.
    destruct (expand_with_method _ _ _ _) as [[b|e] s']; simpl;
      (split; [discriminate | intros H; apply Qle_bool_iff in H; congruence]).
Qed.

Lemma any_positive_not_all_zero (n s e w : Q) :
  any_positive n s e w = true -> all_zero n s e w = false.
Proof.
  unfold any_positive, all_zero, Qgtb. intros H.
  assert (Hz : forall q, Qltb 0 q = true -> Qeq_bool q 0 = false).
  { intros q Hq. apply Qltb_lt in Hq.
    destruct (Qeq_bool q 0) eqn:E; [|reflexivity].
    apply Qeq_bool_iff in E. lra. }
  repeat (apply orb_true_iff in H; destruct H as [H|H]);
    apply Hz in H; rewrite H; rewrite ?andb_false_r; reflexivity.
Qed.

Lemma expand_rectangle_directional_some (obstacle : Obstacle) :
  type_is obstacle "rectangle" = true ->
  directional_applies obstacle = true ->
  exists boundary, expand_rectangle_directional obstacle = Ok (Some boundary).
Proof.
  unfold directional_applies, directions, expand_rectangle_directional.
  intros Ht Hd. rewrite Ht. simpl negb. cbv iota.
  apply andb_true_iff in Hd. destruct Hd as [Hd _].
  apply andb_true_iff in Hd. destruct Hd as [_ Hd].
  rewrite (any_positive_not_all_zero _ _ _ _ Hd). eexists. reflexivity.
Qed.

Lemma expand_polygon_directional_some (obstacle : Obstacle) :
  type_is obstacle "triangle" || type_is obstacle "pentagon" || type_is obstacle "hexagon"
  = true ->
  directional_applies obstacle = true ->
  exists boundary, expand_polygon_directional obstacle = Ok (Some boundary).
Proof.
  unfold directional_applies, directions, expand_polygon_directional.
  intros Ht Hd. rewrite Ht. simpl negb. cbv iota.
  apply andb_true_iff in Hd. destruct Hd as [Hd _].
  apply andb_true_iff in Hd. destruct Hd as [_ Hd].
  rewrite (any_positive_not_all_zero _ _ _ _ Hd).
  unfold type_is in Ht. unfold _get_local_vertices_for_type.
  destruct (o_type obstacle) as [t|]; [|discriminate].
  destruct (String.eqb t "triangle"); [eexists; reflexivity|].
  destruct (String.eqb t "pentagon"); [eexists; reflexivity|].
  destruct (String.eqb t "hexagon"); [eexists; reflexivity|discriminate].
Qed.

(** Which way [expand_obstacle] goes. *)
Lemma expand_obstacle_dispatch (obstacle : Obstacle) (method : option string)
    (force_convex_hull_arg : option bool) :
  expand_obstacle obstacle method force_convex_hull_arg
  = if directional_applies obstacle then
      if type_is obstacle "rectangle" then lift (expand_rectangle_directional obstacle)
      else lift (expand_polygon_directional obstacle)
    else expand_uniform obstacle method force_convex_hull_arg.
Proof.
  unfold expand_obstacle, directional_applies, directions.
  destruct (get (o_use_directional_expansion obstacle) false); [|reflexivity].
  destruct (any_positive _ _ _ _); [|reflexivity].
  destruct (type_is obstacle "rectangle"); [reflexivity|].
  simpl. destruct (type_is obstacle "triangle" || type_is obstacle "pentagon"
                   || type_is obstacle "hexagon"); reflexivity.
Qed.

(** C2, as the code has it.  [expand_obstacle] returns [None] exactly
    when it does not hand the obstacle to a directional method (the flag
    is unset, or no directional distance is positive, or the kind is not
    one of rectangle, triangle, pentagon, hexagon) and the resolved
    distance, the obstacle's own or else the expander's, is at most zero.
    With all four directional distances zero it is the base distance that
    decides. *)
Theorem expand_obstacle_none_iff (obstacle : Obstacle) (method : option string)
    (force_convex_hull_arg : option bool) (self : ObstacleExpander) :
  fst (expand_obstacle obstacle method force_convex_hull_arg self) = Ok None
  <-> directional_applies obstacle = false
      /\ get (o_expansion_distance obstacle) (d_exp self) <= 0.
Proof.
  rewrite expand_obstacle_dispatch.
  destruct (directional_applies obstacle) eqn:Hd.
  - split; [|intros [H _]; discriminate].
    destruct (type_is obstacle "rectangle") eqn:Hr.
    + destruct (expand_rectangle_directional_some obstacle Hr Hd) as [b Hb].
      unfold lift. simpl. rewrite Hb. discriminate.
    + assert (Ht : type_is obstacle "triangle" || type_is obstacle "pentagon"
                    || type_is obstacle "hexagon" = true).
      { unfold directional_applies in Hd. destruct (directions obstacle) as [[[n s] e] w].
        apply andb_true_iff in Hd. destruct Hd as [_ Hd]. rewrite Hr in Hd. exact Hd. }
      destruct (expand_polygon_directional_some obstacle Ht Hd) as [b Hb].
      unfold lift. simpl. rewrite Hb. discriminate.
  - rewrite expand_uniform_none. tauto.
Qed.

(** C4, as the code has it.  For a custom polygon the directional keys are
    not read: [expand_obstacle] gives what it gives for the same obstacle
    without them, the expansion by the base distance. *)
Theorem expand_obstacle_custom_polygon_ignores_directions (obstacle : Obstacle)
    (method : option string) (force_convex_hull_arg : option bool) (self : ObstacleExpander) :
  type_is obstacle "custom_polygon" = true ->
  expand_obstacle obstacle method force_convex_hull_arg self
  = expand_obstacle (without_directional obstacle) method force_convex_hull_arg self
  /\ expand_obstacle obstacle method force_convex_hull_arg self
     = expand_uniform obstacle method force_convex_hull_arg self.
Proof.
  intros Ht.
  assert (Hd : directional_applies obstacle = false).
  { unfold directional_applies. destruct (directions obstacle) as [[[n s] e] w].
    unfold type_is in *. destruct (o_type obstacle) as [t|]; [|discriminate].
    apply String.eqb_eq in Ht. subst t. simpl. apply andb_false_r. }
  rewrite !expand_obstacle_dispatch, Hd.
  split; reflexivity.
Qed.

(** C3, as the code has it.  An obstacle whose kind is none of the five
    gets the vertices of the rectangle of the same placement, from both
    extraction functions, and no exception. *)
Theorem unknown_kind_defaults_to_rectangle (obstacle : Obstacle) (kind : string) :
  o_type obstacle = Some kind ->
  known_kind kind = false ->
  _obstacle_to_vertices obstacle
  = _obstacle_to_vertices (with_type obstacle (Some "rectangle"%string))
  /\ get_obstacle_vertices obstacle
     = get_obstacle_vertices (with_type obstacle (Some "rectangle"%string))
  /\ exists vertices, _obstacle_to_vertices obstacle = Ok vertices.
Proof.
  intros Hk Hu. unfold known_kind in Hu.
  repeat (apply orb_false_iff in Hu; destruct Hu as [Hu ?]).
  unfold _obstacle_to_vertices, get_obstacle_vertices, local_vertices_of.
  rewrite Hk. cbn [get with_type o_type o_x o_y o_width o_height o_rotation
                   o_can_rotate o_points].
  repeat match goal with
         | H : String.eqb kind _ = false |- _ => rewrite H; clear H
         end.
  cbn [String.eqb Ascii.eqb Bool.eqb].
  repeat split; try reflexivity.
  eexists. reflexivity.
Qed.

End ExpanderProperties.

(** ** The properties above on examples, with the reference library *)

(** An unknown method raises, and the expander is as before. *)
Lemma expand_obstacle_unknown_method_raises :
  @expand_obstacle Reference.library (square_100 "rounded") None None
                   {| d_exp := 3; force_convex_hull := false |}
  = (Raise ValueError, {| d_exp := 3; force_convex_hull := false |}).
Proof. vm_compute. reflexivity. Qed.

(** C2 as stated fails twice.  A rectangle in directional mode with all
    four distances zero and base distance 10 gets the uniform boundary,
    not [None]; and a rectangle with base distance 0 and north distance 5
    gets the directional boundary, not [None]. *)
Lemma expand_obstacle_zero_directions_not_none :
  directions (with_directions (square_100 METHOD_PRESERVE_SHAPE) 0 0 0 0) = (0, 0, 0, 0)
  /\ o_use_directional_expansion (with_directions (square_100 METHOD_PRESERVE_SHAPE) 0 0 0 0)
     = Some true
  /\ (exists vertices,
        fst (@expand_obstacle Reference.library
               (with_directions (square_100 METHOD_PRESERVE_SHAPE) 0 0 0 0)
               None None default_expander)
        = Ok (Some (Polygon vertices))
        /\ Forall2 pt_eq vertices [(110, -10); (110, 110); (-10, 110); (-10, -10)])
  /\ o_expansion_distance (with_directions (shape "rectangle" 0 0 100 100) 5 0 0 0) = Some 0
  /\ fst (@expand_obstacle Reference.library
            (with_directions (shape "rectangle" 0 0 100 100) 5 0 0 0)
            None None default_expander)
     = Ok (Some (Arcs [((0, -5), (100, -5)); ((100, -5), (100, 100));
                       ((100, 100), (0, 100)); ((0, 100), (0, -5))]
                      [(0, -5); (100, -5); (100, 100); (0, 100)] 5)).
Proof.
  split; [reflexivity|]. split; [reflexivity|]. split.
  - eexists. split; [vm_compute; reflexivity|].
    repeat constructor; vm_compute; reflexivity.
  - split; [reflexivity|]. vm_compute. reflexivity.
Qed.

(** C3 as stated fails on the kind "circle": both extraction functions
    answer with the rectangle. *)
Lemma unknown_kind_is_not_an_error :
  known_kind "circle" = false
  /\ @_obstacle_to_vertices Reference.library (shape "circle" 0 0 10 20)
     = Ok [(0, 0); (10, 0); (10, 20); (0, 20)]
  /\ @get_obstacle_vertices Reference.library (shape "circle" 0 0 10 20)
     = [(0, 0); (10, 0); (10, 20); (0, 20)].
Proof. repeat split; vm_compute; reflexivity. Qed.

Lemma unknown_kind_defaults_to_rectangle_witness :
  o_type (shape "circle" 0 0 10 20) = Some "circle"%string
  /\ known_kind "circle" = false
  /\ @_obstacle_to_vertices Reference.library (shape "circle" 0 0 10 20)
     = @_obstacle_to_vertices Reference.library
         (with_type (shape "circle" 0 0 10 20) (Some "rectangle"%string)).
Proof.
  split; [reflexivity|]. split; [reflexivity|].
  exact (proj1 (@unknown_kind_defaults_to_rectangle Reference.library
                  (shape "circle" 0 0 10 20) "circle" eq_refl eq_refl)).
Defined.

(** C4 as stated fails: with directional offsetting requested for a
    custom polygon, [expand_obstacle] raises nothing and returns the
    uniform expansion by the base distance. *)
Lemma custom_polygon_directions_not_an_error :
  type_is custom_with_directions "custom_polygon" = true
  /\ get (o_use_directional_expansion custom_with_directions) false = true
  /\ (let '(n, s, e, w) := directions custom_with_directions in any_positive n s e w) = true
  /\ exists vertices,
       fst (@expand_obstacle Reference.library custom_with_directions None None
              default_expander)
       = Ok (Some (Polygon vertices))
       /\ Forall2 pt_eq vertices [(110, -10); (110, 110); (-10, 110); (-10, -10)].
Proof.
  split; [reflexivity|]. split; [reflexivity|]. split; [reflexivity|].
  eexists. split; [vm_compute; reflexivity|].
  repeat constructor; vm_compute; reflexivity.
Qed.

Lemma expand_obstacle_custom_polygon_ignores_directions_witness :
  type_is custom_with_directions "custom_polygon" = true
  /\ @expand_obstacle Reference.library custom_with_directions None None default_expander
     = @expand_obstacle Reference.library (without_directional custom_with_directions)
         None None default_expander.
Proof.
  split; [reflexivity|].
  exact (proj1 (@expand_obstacle_custom_polygon_ignores_directions Reference.library
                  custom_with_directions None None default_expander eq_refl)).
Defined.

(** ** The square of the testable properties *)

Lemma pt_eq_refl (p : point) : pt_eq p p.
Proof. split; reflexivity. Qed.

Lemma pt_eq_trans (p q r : point) : pt_eq p q -> pt_eq q r -> pt_eq p r.
Proof. intros [A B] [C D]. split; [rewrite A; exact C | rewrite B; exact D]. Qed.

Lemma edge_eq_trans (e f g : point * point) : edge_eq e f -> edge_eq f g -> edge_eq e g.
Proof. intros [A B] [C D]. split; eapply pt_eq_trans; eassumption. Qed.

Lemma offset_edge_eq (n n' : point) (d : Q) (e : point * point) :
  pt_eq n n' -> edge_eq (offset_edge n d e) (offset_edge n' d e).
Proof.
  intros [A B]. unfold edge_eq, pt_eq, offset_edge, padd, pscale; simpl.
  rewrite A, B. repeat split; reflexivity.
Qed.

Lemma _line_intersection_eq (p1 p2 p3 p4 q1 q2 q3 q4 : point) :
  pt_eq p1 q1 -> pt_eq p2 q2 -> pt_eq p3 q3 -> pt_eq p4 q4 ->
  pt_eq (_line_intersection p1 p2 p3 p4) (_line_intersection q1 q2 q3 q4).
Proof.
  destruct p1 as [x1 y1], p2 as [x2 y2], p3 as [x3 y3], p4 as [x4 y4].
  destruct q1 as [u1 v1], q2 as [u2 v2], q3 as [u3 v3], q4 as [u4 v4].
  unfold pt_eq at 1 2 3 4; cbn [fst snd]. intros [A1 B1] [A2 B2] [A3 B3] [A4 B4].
  unfold _line_intersection. cbv beta iota zeta.
  assert (HD : (x1 - x2) * (y3 - y4) - (y1 - y2) * (x3 - x4)
               == (u1 - u2) * (v3 - v4) - (v1 - v2) * (u3 - u4))
    by (rewrite A1, A2, A3, A4, B1, B2, B3, B4; reflexivity).
  assert (HC : Qltb (Qabs ((x1 - x2) * (y3 - y4) - (y1 - y2) * (x3 - x4))) eps
               = Qltb (Qabs ((u1 - u2) * (v3 - v4) - (v1 - v2) * (u3 - u4))) eps)
    by (rewrite HD; reflexivity).
  rewrite HC.
  clear HC.
  match goal with |- context [if ?c then _ else _] => destruct c end;
    unfold pt_eq, pdiv, padd; cbn [fst snd].
  - split; [rewrite A2, A3 | rewrite B2, B3]; reflexivity.
  - split; rewrite HD, A1, A3, A4, B1, B3, B4; [rewrite A2 | rewrite B2]; reflexivity.
Qed.

Section SquareExpansion.

Context {ext : External}.

(** [sqrt], as [np.linalg.norm] uses it, is exact on squares of integers. *)
Hypothesis sqrt_exact :
  forall (q : Q) (k : Z), (0 <= k)%Z -> q == inject_Z (k * k) -> sqrt q == inject_Z k.

Lemma unit_normal (v1 v2 : point) (k : Z) :
  (1 <= k)%Z ->
  fst (raw_normal v1 v2) * fst (raw_normal v1 v2)
  + snd (raw_normal v1 v2) * snd (raw_normal v1 v2) == inject_Z (k * k) ->
  pt_eq (normal_or_self v1 v2) (pdiv (raw_normal v1 v2) (inject_Z k))
  /\ pt_eq (normal_or_zero v1 v2) (pdiv (raw_normal v1 v2) (inject_Z k)).
Proof.
  intros Hk Hsq.
  assert (Hn : norm (raw_normal v1 v2) == inject_Z k)
    by (apply sqrt_exact; [lia | exact Hsq]).
  assert (Hg : Qgtb (norm (raw_normal v1 v2)) eps = true).
  { unfold Qgtb. rewrite Hn. apply Qltb_lt.
    apply Qlt_le_trans with (y := 1); [reflexivity|].
    change 1 with (inject_Z 1). rewrite <- Zle_Qle. exact Hk. }
  unfold normal_or_self, normal_or_zero. cbv zeta. rewrite Hg.
  unfold pt_eq, pdiv; simpl. rewrite Hn. repeat split; reflexivity.
Qed.

Lemma generalized_square_edges (d : Q) :
  fst (expand_obstacle (square_100 METHOD_GENERALIZED) None None
         {| d_exp := d; force_convex_hull := false |})
  = Ok (Some (Arcs (map (fun e => offset_edge (normal_or_self (fst e) (snd e)) 10 e) square_sides)
                   [(0, 0); (100, 0); (100, 100); (0, 100)] 10)).
Proof.
  reflexivity.
Qed.

Lemma offset_side (e target : point * point) (k : Z) :
  (1 <= k)%Z ->
  fst (raw_normal (fst e) (snd e)) * fst (raw_normal (fst e) (snd e))
  + snd (raw_normal (fst e) (snd e)) * snd (raw_normal (fst e) (snd e)) == inject_Z (k * k) ->
  edge_eq (offset_edge (pdiv (raw_normal (fst e) (snd e)) (inject_Z k)) 10 e) target ->
  edge_eq (offset_edge (normal_or_self (fst e) (snd e)) 10 e) target
  /\ edge_eq (offset_edge (normal_or_zero (fst e) (snd e)) 10 e) target.
Proof.
  intros Hk Hsq Ht. destruct (unit_normal (fst e) (snd e) k Hk Hsq) as [Hs Hz].
  split; (eapply edge_eq_trans; [apply offset_edge_eq; eassumption | exact Ht]).
Qed.

Lemma edge_length (e target : point * point) (k : Z) :
  (0 <= k)%Z ->
  edge_eq e target ->
  fst (psub (snd target) (fst target)) * fst (psub (snd target) (fst target))
  + snd (psub (snd target) (fst target)) * snd (psub (snd target) (fst target))
  == inject_Z (k * k) ->
  norm (psub (snd e) (fst e)) == inject_Z k.
Proof.
  intros Hk [[A B] [C D]] Hsq. apply sqrt_exact; [exact Hk|].
  rewrite <- Hsq. unfold psub; simpl. rewrite A, B, C, D. reflexivity.
Qed.

Ltac closed_q := vm_compute; reflexivity.


Ltac offset_side_self :=
  match goal with
  | |- edge_eq (offset_edge (normal_or_self (fst ?e) (snd ?e)) _ ?e) ?t =>
      refine (proj1 (offset_side e t 100 _ _ _));
      [lia | closed_q | repeat split; closed_q]
  end.

Ltac offset_side_zero :=
  match goal with
  | |- edge_eq (offset_edge (normal_or_zero (fst ?e) (snd ?e)) _ ?e) ?t =>
      refine (proj2 (offset_side e t 100 _ _ _));
      [lia | closed_q | repeat split; closed_q]
  end.

(** C5.  With a square root that is exact on squares of integers, the
    100 by 100 square at the origin, distance 10, method generalized,
    gives four edges, the sides of the square moved outward by 10 (each 100
    long), the corners of the square as arc centers, in their order, and
    the radius 10. *)
Theorem generalized_square (self : ObstacleExpander) :
  force_convex_hull self = false ->
  exists edges,
    fst (expand_obstacle (square_100 METHOD_GENERALIZED) None None self)
    = Ok (Some (Arcs edges [(0, 0); (100, 0); (100, 100); (0, 100)] 10))
    /\ length edges = 4%nat
    /\ Forall2 edge_eq edges
         [((0, -10), (100, -10)); ((110, 0), (110, 100));
          ((100, 110), (0, 110)); ((-10, 100), (-10, 0))]
    /\ Forall (fun e => norm (psub (snd e) (fst e)) == 100) edges.
Proof.
  intros Hf. destruct self as [d f]. simpl in Hf. subst f.
  rewrite generalized_square_edges. eexists. split; [reflexivity|]. split; [reflexivity|].
  assert (H : Forall2 edge_eq
                (map (fun e => offset_edge (normal_or_self (fst e) (snd e)) 10 e) square_sides)
                [((0, -10), (100, -10)); ((110, 0), (110, 100));
                 ((100, 110), (0, 110)); ((-10, 100), (-10, 0))]).
  { unfold square_sides. cbn [map].
    repeat (apply Forall2_cons; [offset_side_self|]). apply Forall2_nil. }
  split; [exact H|].
  unfold square_sides in *. cbn [map] in *.
  repeat match goal with
         | H : Forall2 _ (_ :: _) _ |- _ => inversion H; subst; clear H
         end.
  repeat (apply Forall_cons;
          [match goal with
           | H : edge_eq ?e ?t |- norm (psub (snd ?e) (fst ?e)) == _ =>
               refine (edge_length e t 100 _ H _); [lia | closed_q]
           end|]).
  apply Forall_nil.
Qed.

Lemma meet_eq (e f e' f' : point * point) :
  edge_eq e e' -> edge_eq f f' -> pt_eq (meet e f) (meet e' f').
Proof.
  intros [A B] [C D]. unfold meet. apply _line_intersection_eq; assumption.
Qed.

Lemma mitered_square_vertices (d : Q) :
  fst (expand_obstacle (square_100 METHOD_PRESERVE_SHAPE) None None
         {| d_exp := d; force_convex_hull := false |})
  = Ok (Some (Polygon
       (let moved := map (fun e => offset_edge (normal_or_zero (fst e) (snd e)) 10 e)
                         square_sides in
        [meet (edge_at moved 0) (edge_at moved 1); meet (edge_at moved 1) (edge_at moved 2);
         meet (edge_at moved 2) (edge_at moved 3); meet (edge_at moved 3) (edge_at moved 0)]))).
Proof. reflexivity. Qed.


End SquareExpansion.

Lemma reference_sqrt_exact (q : Q) (k : Z) :
  (0 <= k)%Z -> q == inject_Z (k * k) -> Reference.sqrt q == inject_Z k.
Proof.
  intros Hk Hq. unfold Reference.sqrt.
  destruct (Qle_bool q 0) eqn:E.
  - apply Qle_bool_iff in E. rewrite Hq in E.
    assert (k = 0)%Z.
    { unfold Qle in E. simpl in E. nia. }
    subst k. reflexivity.
  - rewrite Qred_correct. destruct q as [n p].
    unfold Qeq in Hq. simpl in Hq. simpl Qnum. simpl Qden.
    assert (Hn : (n = k * k * Z.pos p)%Z) by lia.
    replace (n * Z.pos p * 2 ^ 32 * 2 ^ 32)%Z
      with ((k * Z.pos p * 2 ^ 32) * (k * Z.pos p * 2 ^ 32))%Z by (rewrite Hn; ring).
    rewrite Z.sqrt_square by lia.
    unfold Qeq. cbn [Qnum Qden inject_Z]. rewrite Pos2Z.inj_mul. change (Z.pos (Z.to_pos (2 ^ 32))) with (2 ^ 32)%Z.
    ring.
Qed.

Lemma generalized_square_witness :
  force_convex_hull default_expander = false
  /\ exists edges,
       fst (@expand_obstacle Reference.library (square_100 METHOD_GENERALIZED) None None
              default_expander)
       = Ok (Some (Arcs edges [(0, 0); (100, 0); (100, 100); (0, 100)] 10))
       /\ length edges = 4%nat
       /\ Forall2 edge_eq edges
            [((0, -10), (100, -10)); ((110, 0), (110, 100));
             ((100, 110), (0, 110)); ((-10, 100), (-10, 0))]
       /\ Forall (fun e => @norm Reference.library (psub (snd e) (fst e)) == 100) edges.
Proof.
  split; [reflexivity|].
  exact (@generalized_square Reference.library reference_sqrt_exact default_expander eq_refl).
Defined.


(** ** The detector *)

Section DetectorProperties.

Context {ext : External}.

Lemma arc_points_samples (center : point) (radius angle1 angle2 : Q) :
  arc_points center radius angle1 angle2
  = map (fun t => let angle := angle1 + t * (angle2 - angle1) in
                  (fst center + radius * cos angle, snd center + radius * sin angle))
        [1 # 5; 2 # 5; 3 # 5; 4 # 5].
Proof. reflexivity. Qed.

Lemma approximate_arcs_samples (edges : list (point * point)) (arc_centers : list point)
    (radius : Q) :
  approximate_arcs edges arc_centers radius
  = flat_map (fun i => fst (edge_at edges i)
                       :: map (arc_sample edges arc_centers radius i)
                              [1 # 5; 2 # 5; 3 # 5; 4 # 5])
             (seq 0 (length edges)).
Proof. reflexivity. Qed.

Lemma approximate_arcs_length (edges : list (point * point)) (arc_centers : list point)
    (radius : Q) :
  length (approximate_arcs edges arc_centers radius) = (5 * length edges)%nat.
Proof.
  rewrite approximate_arcs_samples.
  rewrite <- (length_seq (length edges) 0) at 2.
  induction (seq 0 (length edges)) as [|i l IH]; [reflexivity|].
  cbn [flat_map]. rewrite length_app, IH. simpl. lia.
Qed.

Lemma sides_length (vertices : list point) : length (sides vertices) = length vertices.
Proof. unfold sides. rewrite length_map, length_seq. reflexivity. Qed.

(** The representation that [expand_obstacle] returns goes with the
    method: the tuple for generalized, a list otherwise. *)
Lemma expand_obstacle_representation (obstacle : Obstacle) (self : ObstacleExpander)
    (boundary : ExpandedBoundary) :
  let method := get (o_expansion_method obstacle) METHOD_GENERALIZED in
  fst (expand_obstacle obstacle (Some method) None self) = Ok (Some boundary) ->
  match boundary with
  | Arcs edges arc_centers _ =>
      method = METHOD_GENERALIZED /\ length arc_centers = length edges
  | Polygon _ => String.eqb method METHOD_GENERALIZED = false
  end.
Proof.
  cbv zeta. rewrite expand_obstacle_dispatch.
  assert (Hm : forall world n s e w,
             match apply_method obstacle world n s e w with
             | Arcs edges arc_centers _ =>
                 get (o_expansion_method obstacle) METHOD_GENERALIZED = METHOD_GENERALIZED
                 /\ length arc_centers = length edges
             | Polygon _ =>
                 String.eqb (get (o_expansion_method obstacle) METHOD_GENERALIZED)
                            METHOD_GENERALIZED = false
             end).
  { intros world n s e w. unfold apply_method.
    destruct (String.eqb _ METHOD_GENERALIZED) eqn:E.
    - apply String.eqb_eq in E. split; [exact E | symmetry; apply sides_length].
    - destruct (String.eqb _ METHOD_CONVEX); reflexivity. }
  destruct (directional_applies obstacle).
  - destruct (type_is obstacle "rectangle").
    + unfold lift, expand_rectangle_directional. cbn [fst].
      repeat match goal with
             | |- context [if ?b then _ else _] => destruct b
             end; try discriminate.
      all: intros H; injection H as <-; apply Hm.
    + unfold lift, expand_polygon_directional. cbn [fst].
      destruct (_get_local_vertices_for_type _ _ _);
        repeat match goal with
               | |- context [if ?b then _ else _] => destruct b
               end; try discriminate;
        intros H; injection H as <-; apply Hm.
  - unfold expand_uniform, bind, get_self, ret.
    destruct (Qle_bool _ 0); [discriminate|].
    unfold set_d_exp at 1. unfold try_finally, expand_with_method, bind, get_self, lift, ret, raise.
    cbn [get].
    destruct (_obstacle_to_vertices obstacle) as [vertices|e]; [|discriminate].
    destruct (String.eqb _ METHOD_PRESERVE_SHAPE) eqn:E1.
    { apply String.eqb_eq in E1. rewrite E1. cbn. intros H. injection H as <-. reflexivity. }
    destruct (String.eqb _ METHOD_CONVEX) eqn:E2.
    { apply String.eqb_eq in E2. rewrite E2. cbn. intros H. injection H as <-. reflexivity. }
    destruct (String.eqb _ METHOD_GENERALIZED) eqn:E3; [|discriminate].
    apply String.eqb_eq in E3. cbn. intros H. injection H as <-.
    split; [exact E3|].
    unfold _ensure_counter_clockwise.
    rewrite length_map, length_seq. reflexivity.
Qed.



End DetectorProperties.


(** ** Authoring-time checks *)

(** What [check_new_edge_intersection] computes: the crossing test of the
    specification, and besides it the test of the candidate edge from the
    last point against the placed edge that ends in the last point. *)
Lemma check_new_edge_intersection_tests (existing_points : list point) (new_point : point) :
  check_new_edge_intersection existing_points new_point
  = would_create_crossing existing_points new_point
    || ((2 <=? length existing_points)%nat
        && segments_intersect
             (vertex_at existing_points (length existing_points - 1)) new_point
             (vertex_at existing_points (length existing_points - 2))
             (vertex_at existing_points (length existing_points - 1))).
Proof.
  unfold check_new_edge_intersection, would_create_crossing. cbv zeta.
  destruct (length existing_points) as [|[|n]] eqn:E; [reflexivity|reflexivity|].
  change (S (S n) <? 2)%nat with false. change (2 <=? S (S n))%nat with true.
  change (1 <=? S (S n))%nat with true. cbv iota. rewrite !andb_true_l.
  replace (S (S n) - 1)%nat with (S n) by lia.
  replace (S (S n) - 2)%nat with n by lia.
  replace (S n - 1)%nat with n by lia.
  rewrite seq_S, existsb_app. cbn [existsb fst snd]. rewrite orb_false_r.
  rewrite Nat.add_0_l.
  replace (n + 1)%nat with (S n) by lia.
  repeat match goal with
         | |- context [existsb ?f ?l] =>
             let b := fresh "b" in
             set (b := existsb f l); clearbody b; destruct b
         end;
    destruct (segments_intersect _ _ _ _); reflexivity.
Qed.

(** C9 fails on the code.  With the two points (0,0), (10,0) placed and
    (10,10) as the new point, the one placed edge shares the last point
    with the candidate edge, so the specification's test answers [False];
    [check_new_edge_intersection] tests that edge as well and answers
    [True]. *)
Theorem check_new_edge_intersection_adjacent_edge :
  would_create_crossing [(0, 0); (10, 0)] (10, 10) = false
  /\ check_new_edge_intersection [(0, 0); (10, 0)] (10, 10) = true
  /\ segments_intersect (10, 0) (10, 10) (0, 0) (10, 0) = true.
Proof. repeat split; vm_compute; reflexivity. Qed.

(** * Further properties *)

(** ** More on the winding normalizer *)

Lemma last_cons (p q : point) (path : list point) :
  last (q :: path) p = last path q.
Proof.
  revert p q. induction path as [|r path IH]; intros p q; [reflexivity|].
  change (last (q :: r :: path) p) with (last (r :: path) p).
  rewrite (IH p r), (IH q r). reflexivity.
Qed.

Lemma chain_translate (v p : point) (path : list point) :
  chain (translate v (p :: path))
  == chain (p :: path) + cross p v - cross (last path p) v.
Proof.
  unfold translate. revert p. induction path as [|q path IH]; intros p.
  - simpl. ring.
  - cbn [map]. rewrite chain_cons.
    specialize (IH q). cbn [map] in IH. rewrite IH, chain_cons.
    rewrite last_cons.
    unfold cross, padd; simpl. ring.
Qed.

Lemma signed_area_translate (v : point) (vertices : list point) :
  signed_area (translate v vertices) == signed_area vertices.
Proof.
  rewrite !signed_area_chain.
  destruct vertices as [|p vertices]; [reflexivity|].
  change (translate v (p :: vertices) ++ firstn 1 (translate v (p :: vertices)))
    with (translate v (p :: vertices) ++ translate v [p]).
  unfold translate at 1 2. rewrite <- map_app.
  change (map (fun q => padd q v) ((p :: vertices) ++ [p]))
    with (translate v (p :: (vertices ++ [p]))).
  rewrite chain_translate, last_last.
  simpl firstn. simpl app. ring.
Qed.

Lemma chain_app (before : list point) (p : point) (after : list point) :
  chain (before ++ p :: after) == chain (before ++ [p]) + chain (p :: after).
Proof.
  induction before as [|a before IH].
  - simpl. ring.
  - destruct before as [|b before].
    + simpl app. rewrite chain_cons. simpl. ring.
    + change (chain (a :: b :: (before ++ p :: after))
              == chain (a :: b :: (before ++ [p])) + chain (p :: after)).
      rewrite !chain_cons. simpl app in IH. rewrite IH. ring.
Qed.

Lemma signed_area_shift (front back : list point) :
  signed_area (back ++ front) == signed_area (front ++ back).
Proof.
  rewrite !signed_area_chain.
  destruct front as [|a front]; [rewrite !app_nil_r; reflexivity|].
  destruct back as [|b back]; [rewrite !app_nil_r; reflexivity|].
  simpl firstn.
  change (((b :: back) ++ a :: front) ++ [b]) with (b :: (back ++ a :: front) ++ [b]).
  change (((a :: front) ++ b :: back) ++ [a]) with (a :: (front ++ b :: back) ++ [a]).
  rewrite <- !app_assoc.
  change (b :: back ++ (a :: front) ++ [b]) with ((b :: back) ++ a :: (front ++ [b])).
  change (a :: front ++ (b :: back) ++ [a]) with ((a :: front) ++ b :: (back ++ [a])).
  rewrite (chain_app (b :: back) a (front ++ [b])).
  rewrite (chain_app (a :: front) b (back ++ [a])). simpl app. ring.
Qed.





(** ** The offsetting methods *)



Section OffsettingProperties.

Context {ext : External}.

Lemma ensure_ccw_length (vertices : list point) :
  length (_ensure_counter_clockwise vertices) = length vertices.
Proof.
  unfold _ensure_counter_clockwise.
  destruct (negb _); [apply length_rev | reflexivity].
Qed.

Lemma flat_map_pairs_length {A : Type} (f g : A -> point) (l : list A) :
  length (flat_map (fun a => [f a; g a]) l) = (2 * length l)%nat.
Proof.
  induction l as [|a l IH]; [reflexivity|]. cbn [flat_map app length]. rewrite IH. lia.
Qed.

(** X5.  For a polygon of [n] vertices the mitered method returns [n]
    vertices, the beveled method [2 n], and the generalized method [n]
    edges with [n] arc centers, the vertices in counter-clockwise order,
    and the radius [d_exp]. *)
Theorem expansion_sizes (self : ObstacleExpander) (vertices : list point) :
  length (expand_polygon_preserve_shape self vertices) = length vertices
  /\ length (expand_polygon_convex self vertices) = (2 * length vertices)%nat
  /\ (let '(edges, arc_centers, radius) := expand_polygon_generalized self vertices in
      length edges = length vertices
      /\ arc_centers = _ensure_counter_clockwise vertices
      /\ radius = d_exp self).
Proof.
  split; [|split].
  - unfold expand_polygon_preserve_shape, intersect_adjacent.
    rewrite !length_map, !length_seq. apply ensure_ccw_length.
  - unfold expand_polygon_convex, bevel.
    rewrite flat_map_pairs_length, length_seq, ensure_ccw_length. reflexivity.
  - unfold expand_polygon_generalized.
    rewrite length_map, length_seq, ensure_ccw_length. repeat split.
Qed.

Lemma Forall2_map_seq {A B : Type} (R : A -> B -> Prop) (f : nat -> A) (g : nat -> B)
    (l : list nat) :
  (forall i, R (f i) (g i)) -> Forall2 R (map f l) (map g l).
Proof.
  intros H. induction l as [|i l IH]; [constructor|]. cbn [map]. constructor; [apply H | exact IH].
Qed.


End OffsettingProperties.

Lemma line_intersection_at_shared_point (p1 p2 p3 p4 b : point) :
  pt_eq p2 b -> pt_eq p3 b -> pt_eq (_line_intersection p1 p2 p3 p4) b.
Proof.
  destruct p1 as [x1 y1], p2 as [x2 y2], p3 as [x3 y3], p4 as [x4 y4], b as [bx by_].
  unfold pt_eq at 1 2; cbn [fst snd]. intros [A2 B2] [A3 B3].
  unfold _line_intersection. cbv beta iota zeta.
  destruct (Qltb (Qabs ((x1 - x2) * (y3 - y4) - (y1 - y2) * (x3 - x4))) eps) eqn:E;
    unfold pt_eq, pdiv, padd; cbn [fst snd].
  - rewrite A2, A3, B2, B3. split; field.
  - apply Qltb_ge in E.
    assert (Hnz : ~ (x1 - x2) * (y3 - y4) - (y1 - y2) * (x3 - x4) == 0).
    { intros Hz. rewrite Hz in E. vm_compute in E. apply E. reflexivity. }
    rewrite A2, A3, B2, B3 in Hnz. rewrite A2, A3, B2, B3.
    split; field; exact Hnz.
Qed.

Lemma edge_at_map_seq (f : nat -> point * point) (n i : nat) :
  (i < n)%nat -> edge_at (map f (seq 0 n)) i = f i.
Proof.
  intros H. unfold edge_at.
  rewrite (nth_indep _ _ (f 0%nat)) by (rewrite length_map, length_seq; exact H).
  rewrite map_nth, seq_nth by exact H. reflexivity.
Qed.

Lemma Forall2_map_in {A B C : Type} (R : A -> B -> Prop) (f : C -> A) (g : C -> B)
    (l : list C) :
  (forall i, In i l -> R (f i) (g i)) -> Forall2 R (map f l) (map g l).
Proof.
  induction l as [|i l IH]; intros H; [constructor|]. cbn [map].
  apply Forall2_cons; [apply H; left; reflexivity|].
  apply IH. intros j Hj. apply H. right. exact Hj.
Qed.

Lemma Forall2_flat_map_seq {A B : Type} (R : A -> B -> Prop) (f : nat -> list A)
    (g : nat -> list B) (l : list nat) :
  (forall i, Forall2 R (f i) (g i)) -> Forall2 R (flat_map f l) (flat_map g l).
Proof.
  intros H. induction l as [|i l IH]; [constructor|]. cbn [flat_map].
  apply Forall2_app; [apply H | exact IH].
Qed.

Section ZeroDistance.

Context {ext : External}.


End ZeroDistance.


(** ** Errors and settings of [expand_obstacle] *)

Section ExpanderErrors.

Context {ext : External}.

Lemma obstacle_to_vertices_raises (obstacle : Obstacle) :
  _obstacle_to_vertices obstacle = Raise ValueError
  <-> empty_custom_polygon obstacle = true.
Proof.
  unfold _obstacle_to_vertices, local_vertices_of, empty_custom_polygon.
  destruct (String.eqb _ "rectangle") eqn:E1.
  { apply String.eqb_eq in E1. rewrite E1. simpl. split; discriminate. }
  destruct (String.eqb _ "triangle") eqn:E2.
  { apply String.eqb_eq in E2. rewrite E2. simpl. split; discriminate. }
  destruct (String.eqb _ "pentagon") eqn:E3.
  { apply String.eqb_eq in E3. rewrite E3. simpl. split; discriminate. }
  destruct (String.eqb _ "hexagon") eqn:E4.
  { apply String.eqb_eq in E4. rewrite E4. simpl. split; discriminate. }
  destruct (String.eqb _ "custom_polygon"); simpl.
  - destruct (o_points obstacle) as [[|p pts]|]; simpl; split;
      solve [reflexivity | discriminate].
  - split; discriminate.
Qed.

(** X8.  Vertex extraction in the expander raises on exactly one kind of
    obstacle, the custom polygon whose list of points is empty; on every
    other obstacle it returns vertices. *)
Theorem obstacle_to_vertices_raises_iff (obstacle : Obstacle) :
  (_obstacle_to_vertices obstacle = Raise ValueError
   <-> empty_custom_polygon obstacle = true)
  /\ (empty_custom_polygon obstacle = false
      <-> exists vertices, _obstacle_to_vertices obstacle = Ok vertices).
Proof.
  pose proof (obstacle_to_vertices_raises obstacle) as H.
  split; [exact H|].
  destruct (_obstacle_to_vertices obstacle) as [vertices|[]].
  - split; [intros _; exists vertices; reflexivity|].
    intros _. destruct (empty_custom_polygon obstacle); [|reflexivity].
    destruct H as [_ H]. specialize (H eq_refl). discriminate.
  - split.
    + intros He. destruct H as [H _]. rewrite (H eq_refl) in He. discriminate.
    + intros [vertices Hv]. discriminate.
Qed.

Lemma expand_with_method_raises_iff (obstacle : Obstacle) (use_convex_hull : bool)
    (method : string) (self : ObstacleExpander) :
  fst (expand_with_method obstacle use_convex_hull method self) = Raise ValueError
  <-> empty_custom_polygon obstacle = true \/ known_method method = false.
Proof.
  unfold expand_with_method, bind, get_self, lift, ret, raise.
  pose proof (obstacle_to_vertices_raises obstacle) as Hv.
  destruct (_obstacle_to_vertices obstacle) as [vertices|[]].
  - assert (He : empty_custom_polygon obstacle = false).
    { destruct (empty_custom_polygon obstacle); [|reflexivity].
      destruct Hv as [_ Hv]. specialize (Hv eq_refl). discriminate. }
    rewrite He. unfold known_method, get_all_methods. cbn [existsb].
    destruct (String.eqb method METHOD_PRESERVE_SHAPE); cbn [fst].
    { rewrite !orb_true_r. simpl. split; [discriminate | intros [H|H]; discriminate]. }
    destruct (String.eqb method METHOD_CONVEX); cbn [fst].
    { rewrite !orb_true_r. split; [discriminate | intros [H|H]; discriminate]. }
    destruct (String.eqb method METHOD_GENERALIZED); cbn [fst].
    + destruct (expand_polygon_generalized _ _) as [[edges centers] radius]. cbn [fst].
      split; [discriminate | intros [H|H]; discriminate].
    + split; [intros _; right; reflexivity | reflexivity].
  - cbn [fst]. split; [intros _; left; apply Hv; reflexivity | reflexivity].
Qed.

(** X9.  [expand_obstacle] raises exactly when it takes the uniform way
    with a positive distance and either the obstacle is a custom polygon
    with no points or the method, the argument or else the obstacle's own
    or else the default, is none of those of [get_all_methods].  A call
    handed to a directional method does not raise. *)
Theorem expand_obstacle_raises_iff (obstacle : Obstacle) (method : option string)
    (force_convex_hull_arg : option bool) (self : ObstacleExpander) :
  fst (expand_obstacle obstacle method force_convex_hull_arg self) = Raise ValueError
  <-> directional_applies obstacle = false
      /\ 0 < get (o_expansion_distance obstacle) (d_exp self)
      /\ (empty_custom_polygon obstacle = true
          \/ known_method
               (get method (get (o_expansion_method obstacle) METHOD_GENERALIZED))
             = false).
Proof.
  rewrite expand_obstacle_dispatch.
  destruct (directional_applies obstacle) eqn:Hd.
  - split; [|intros [H _]; discriminate].
    destruct (type_is obstacle "rectangle") eqn:Hr.
    + destruct (expand_rectangle_directional_some obstacle Hr Hd) as [b Hb].
      unfold lift. cbn [fst]. rewrite Hb. discriminate.
    + assert (Ht : type_is obstacle "triangle" || type_is obstacle "pentagon"
                    || type_is obstacle "hexagon" = true).
      { unfold directional_applies in Hd. destruct (directions obstacle) as [[[n s] e] w].
        apply andb_true_iff in Hd. destruct Hd as [_ Hd]. rewrite Hr in Hd. exact Hd. }
      destruct (expand_polygon_directional_some obstacle Ht Hd) as [b Hb].
      unfold lift. cbn [fst]. rewrite Hb. discriminate.
  - unfold expand_uniform, bind, get_self, ret.
    destruct (Qle_bool _ 0) eqn:E.
    + cbn [fst]. apply Qle_bool_iff in E.
      split; [discriminate | intros [_ [H _]]; lra].
    + assert (Hpos : 0 < get (o_expansion_distance obstacle) (d_exp self)).
      { apply Qnot_le_lt. intros H. apply Qle_bool_iff in H. congruence. }
      unfold set_d_exp at 1. unfold try_finally.
      match goal with
      | |- context [expand_with_method ?o ?u ?m ?s] =>
          pose proof (expand_with_method_raises_iff o u m s) as Hw;
          destruct (expand_with_method o u m s) as [[b|[]] s']
      end; cbn [fst] in *.
      * split; [discriminate|]. intros [_ [_ H]]. apply Hw in H. discriminate.
      * split; [intros _; repeat split; try assumption; apply Hw; reflexivity
               | reflexivity].
Qed.

(** X10.  An obstacle that carries its own distance and its own convex
    hull setting is expanded the same by every expander and with every
    convex hull argument: the settings of the object and of the call do
    not reach the result. *)
Theorem obstacle_settings_override (obstacle : Obstacle) (method : option string)
    (distance : Q) (hull : bool) (f f' : option bool) (self self' : ObstacleExpander) :
  o_expansion_distance obstacle = Some distance ->
  o_force_convex_hull obstacle = Some hull ->
  fst (expand_obstacle obstacle method f self)
  = fst (expand_obstacle obstacle method f' self').
Proof.
  intros Hd Hh. rewrite !expand_obstacle_dispatch.
  destruct (directional_applies obstacle); [destruct (type_is _ _); reflexivity|].
  unfold expand_uniform, bind, get_self, ret. rewrite Hd, Hh. cbn [get].
  destruct (Qle_bool distance 0); [reflexivity|].
  unfold set_d_exp at 1 3. unfold try_finally, set_d_exp.
  unfold expand_with_method, bind, get_self, lift, ret, raise. cbn [d_exp].
  destruct (_obstacle_to_vertices obstacle); [|reflexivity].
  repeat match goal with
         | |- context [if ?b then _ else _] => destruct b
         end; reflexivity.
Qed.

(** X11.  An obstacle without a distance of its own is expanded by the
    distance of the expander: after [set_expansion_distance d] the result
    is that of the obstacle with [d] as its own distance. *)
Theorem expander_distance_is_default (obstacle : Obstacle) (method : option string)
    (f : option bool) (distance : Q) (self : ObstacleExpander) :
  o_expansion_distance obstacle = None ->
  fst (expand_obstacle obstacle method f (snd (set_expansion_distance distance self)))
  = fst (expand_obstacle (with_distance obstacle distance) method f self).
Proof.
  intros Hd. rewrite !expand_obstacle_dispatch.
  change (directional_applies (with_distance obstacle distance))
    with (directional_applies obstacle).
  destruct (directional_applies obstacle); [destruct (type_is _ _); reflexivity|].
  unfold expand_uniform, bind, get_self, ret. rewrite Hd.
  cbn [get set_expansion_distance snd d_exp with_distance o_expansion_distance
       force_convex_hull o_force_convex_hull o_expansion_method].
  destruct (Qle_bool distance 0); [reflexivity|].
  unfold set_d_exp at 1 3. unfold try_finally, set_d_exp.
  unfold expand_with_method, bind, get_self, lift, ret, raise. cbn [d_exp].
  change (_obstacle_to_vertices (with_distance obstacle distance))
    with (_obstacle_to_vertices obstacle).
  destruct (_obstacle_to_vertices obstacle); [|reflexivity].
  repeat match goal with
         | |- context [if ?b then _ else _] => destruct b
         end; reflexivity.
Qed.

End ExpanderErrors.

Lemma obstacle_settings_override_witness :
  o_expansion_distance square_own_settings = Some 10
  /\ o_force_convex_hull square_own_settings = Some false
  /\ fst (@expand_obstacle Reference.library square_own_settings None None default_expander)
     = fst (@expand_obstacle Reference.library square_own_settings None (Some true)
              {| d_exp := 3; force_convex_hull := true |}).
Proof.
  split; [reflexivity|]. split; [reflexivity|].
  exact (@obstacle_settings_override Reference.library square_own_settings None 10 false
           None (Some true) default_expander {| d_exp := 3; force_convex_hull := true |}
           eq_refl eq_refl).
Defined.

Lemma expander_distance_is_default_witness :
  o_expansion_distance square_no_distance = None
  /\ fst (@expand_obstacle Reference.library square_no_distance None None
            (snd (set_expansion_distance 10 default_expander)))
     = fst (@expand_obstacle Reference.library (with_distance square_no_distance 10)
              None None default_expander).
Proof.
  split; [reflexivity|].
  exact (@expander_distance_is_default Reference.library square_no_distance None None 10
           default_expander eq_refl).
Defined.

(** ** The directional methods and vertex extraction *)

Section DirectionalProperties.

Context {ext : External}.

(** X12.  The two directional methods called directly.  Each raises on a
    kind that is not its own, returns [None] when its kind is right and
    the four distances are all zero, and a boundary otherwise. *)
Theorem directional_methods_outcomes (obstacle : Obstacle) :
  let '(n, s, e, w) := directions obstacle in
  (expand_rectangle_directional obstacle = Raise ValueError
   <-> type_is obstacle "rectangle" = false)
  /\ (expand_rectangle_directional obstacle = Ok None
      <-> type_is obstacle "rectangle" = true /\ all_zero n s e w = true)
  /\ (expand_polygon_directional obstacle = Raise ValueError
      <-> type_is obstacle "triangle" || type_is obstacle "pentagon"
          || type_is obstacle "hexagon" = false)
  /\ (expand_polygon_directional obstacle = Ok None
      <-> type_is obstacle "triangle" || type_is obstacle "pentagon"
          || type_is obstacle "hexagon" = true
          /\ all_zero n s e w = true).
Proof.
  unfold directions, expand_rectangle_directional, expand_polygon_directional.
  cbv zeta.
  destruct (type_is obstacle "rectangle");
    destruct (type_is obstacle "triangle" || type_is obstacle "pentagon"
              || type_is obstacle "hexagon") eqn:Ht;
    cbn [negb]; cbv iota;
    destruct (all_zero _ _ _ _);
    try (assert (Hl : exists l, _get_local_vertices_for_type (o_type obstacle)
                                  (o_width obstacle) (o_height obstacle) = Ok l)
          by (unfold type_is in Ht; unfold _get_local_vertices_for_type;
              destruct (o_type obstacle) as [t|]; [|discriminate];
              destruct (String.eqb t "triangle"); [eexists; reflexivity|];
              destruct (String.eqb t "pentagon"); [eexists; reflexivity|];
              destruct (String.eqb t "hexagon"); [eexists; reflexivity|discriminate]);
         destruct Hl as [l Hl]; rewrite Hl);
    repeat split; intros; try discriminate; try reflexivity;
    repeat match goal with
           | H : _ /\ _ |- _ => destruct H
           end; try discriminate.
Qed.

(** X13.  A rectangle that is not turned, in directional mode with the
    method preserve_shape and the four distances not all zero: the
    boundary is the rectangle with each side moved out by its own
    distance, north towards smaller [y]. *)
Theorem rectangle_directional_grows_each_side (obstacle : Obstacle) (n s e w : Q) :
  directions obstacle = (n, s, e, w) ->
  type_is obstacle "rectangle" = true ->
  Qeq_bool (get (o_rotation obstacle) 0) 0 = true ->
  o_expansion_method obstacle = Some METHOD_PRESERVE_SHAPE ->
  all_zero n s e w = false ->
  expand_rectangle_directional obstacle
  = Ok (Some (Polygon
       [(- w + o_x obstacle, - n + o_y obstacle);
        (o_width obstacle + e + o_x obstacle, - n + o_y obstacle);
        (o_width obstacle + e + o_x obstacle, o_height obstacle + s + o_y obstacle);
        (- w + o_x obstacle, o_height obstacle + s + o_y obstacle)])).
Proof.
  unfold directions, expand_rectangle_directional, apply_method. cbv zeta.
  intros Hd Ht Hr Hm Hz. injection Hd as <- <- <- <-.
  rewrite Ht, Hr, Hm, Hz. reflexivity.
Qed.


(** X15.  On an obstacle that is not turned, not a pentagon or a hexagon
    and not a custom polygon without points, the expander and the detector
    extract the same vertices. *)
Theorem extraction_agrees_when_not_rotated (obstacle : Obstacle) :
  Qeq_bool (get (o_rotation obstacle) 0) 0 = true ->
  String.eqb (get (o_type obstacle) "rectangle"%string) "pentagon" = false ->
  String.eqb (get (o_type obstacle) "rectangle"%string) "hexagon" = false ->
  empty_custom_polygon obstacle = false ->
  _obstacle_to_vertices obstacle = Ok (get_obstacle_vertices obstacle).
Proof.
  unfold _obstacle_to_vertices, get_obstacle_vertices, local_vertices_of,
    empty_custom_polygon.
  intros Hr Hp Hh He. rewrite Hr, Hp, Hh. cbn [negb andb].
  destruct (String.eqb _ "rectangle"); [reflexivity|].
  destruct (String.eqb _ "triangle"); [reflexivity|].
  destruct (String.eqb _ "custom_polygon"); [|reflexivity].
  destruct (o_points obstacle) as [[|p pts]|]; [discriminate|reflexivity|reflexivity].
Qed.

(** X16.  The two extraction functions turn a custom polygon about
    different points: the expander, which also honours [can_rotate], about
    the mean of the points, the detector about the center of the bounding
    box.  With [can_rotate] false the detector still turns the points and
    the expander does not. *)
Theorem detector_ignores_can_rotate (obstacle : Obstacle) (pts : list point) :
  o_type obstacle = Some "custom_polygon"%string ->
  o_points obstacle = Some pts ->
  pts <> [] ->
  o_can_rotate obstacle = Some false ->
  Qeq_bool (get (o_rotation obstacle) 0) 0 = false ->
  _obstacle_to_vertices obstacle
  = Ok (map (fun v => padd v (o_x obstacle, o_y obstacle)) pts)
  /\ get_obstacle_vertices obstacle
     = map (fun v => padd v (o_x obstacle, o_y obstacle))
           (rotate_about (o_width obstacle / 2, o_height obstacle / 2)
                         (get (o_rotation obstacle) 0) pts).
Proof.
  unfold _obstacle_to_vertices, get_obstacle_vertices, local_vertices_of.
  intros Ht Hp Hne Hc Hr. rewrite Ht, Hp, Hc, Hr. cbn.
  destruct pts as [|p pts]; [contradiction|]. split; reflexivity.
Qed.

(** X17.  Both extraction functions return four vertices for a
    rectangle, three for a triangle, five for a pentagon, six for a
    hexagon, for a custom polygon as many as it has points, and four for
    every other obstacle; turning the obstacle does not change the
    number. *)
Theorem extraction_vertex_counts (obstacle : Obstacle) :
  let kind := get (o_type obstacle) "rectangle"%string in
  let count :=
    if String.eqb kind "rectangle" then 4%nat
    else if String.eqb kind "triangle" then 3%nat
    else if String.eqb kind "pentagon" then 5%nat
    else if String.eqb kind "hexagon" then 6%nat
    else match String.eqb kind "custom_polygon", o_points obstacle with
         | true, Some pts => length pts
         | _, _ => 4%nat
         end in
  length (get_obstacle_vertices obstacle) = count
  /\ (forall vertices,
        _obstacle_to_vertices obstacle = Ok vertices -> length vertices = count).
Proof.
  cbv zeta. split.
  - unfold get_obstacle_vertices. cbv zeta. rewrite length_map.
    assert (Hr : forall l : list point,
               length (if negb (Qeq_bool (get (o_rotation obstacle) 0) 0)
                       then rotate_about (o_width obstacle / 2, o_height obstacle / 2)
                                         (get (o_rotation obstacle) 0) l
                       else l) = length l).
    { intros l. destruct (negb _); [apply length_map | reflexivity]. }
    rewrite Hr.
    destruct (String.eqb _ "rectangle"); [reflexivity|].
    destruct (String.eqb _ "triangle"); [reflexivity|].
    destruct (String.eqb _ "pentagon"); [rewrite length_map, length_seq; reflexivity|].
    destruct (String.eqb _ "hexagon"); [rewrite length_map, length_seq; reflexivity|].
    destruct (String.eqb _ "custom_polygon"); [|reflexivity].
    destruct (o_points obstacle); reflexivity.
  - intros vertices. unfold _obstacle_to_vertices. cbv zeta.
    destruct (local_vertices_of _ obstacle) as [local_vertices|e] eqn:El; [|discriminate].
    intros H.
    apply (f_equal (fun r => match r with Ok l => length l | Raise _ => 0%nat end)) in H.
    cbv beta iota in H. rewrite <- H, length_map.
    assert (Hl : forall (c : bool) (center : point),
               length (if c then rotate_about center (get (o_rotation obstacle) 0)
                                              local_vertices
                       else local_vertices) = length local_vertices).
    { intros c center. destruct c; [apply length_map | reflexivity]. }
    rewrite Hl. clear H Hl. revert El. unfold local_vertices_of. cbv zeta.
    assert (Hok : forall l : list point, Ok l = Ok local_vertices -> l = local_vertices)
      by (intros l H; congruence).
    destruct (String.eqb _ "rectangle").
    { intros H. apply Hok in H. rewrite <- H. reflexivity. }
    destruct (String.eqb _ "triangle").
    { intros H. apply Hok in H. rewrite <- H. reflexivity. }
    destruct (String.eqb _ "pentagon").
    { intros H. apply Hok in H. rewrite <- H.
      unfold _regular_polygon_vertices. rewrite length_map, length_seq. reflexivity. }
    destruct (String.eqb _ "hexagon").
    { intros H. apply Hok in H. rewrite <- H.
      unfold _regular_polygon_vertices. rewrite length_map, length_seq. reflexivity. }
    destruct (String.eqb _ "custom_polygon").
    + destruct (o_points obstacle) as [[|p pts]|]; [discriminate| |];
        intros H; apply Hok in H; rewrite <- H; reflexivity.
    + intros H. apply Hok in H. rewrite <- H. reflexivity.
Qed.

End DirectionalProperties.

Lemma rectangle_directional_grows_each_side_witness :
  directions rectangle_north_east = (5, 0, 3, 0)
  /\ @expand_rectangle_directional Reference.library rectangle_north_east
     = Ok (Some (Polygon
          [(- 0 + 10, - 5 + 20);
           (100 + 3 + 10, - 5 + 20);
           (100 + 3 + 10, 50 + 0 + 20);
           (- 0 + 10, 50 + 0 + 20)])).
Proof.
  split; [reflexivity|].
  exact (@rectangle_directional_grows_each_side Reference.library rectangle_north_east
           5 0 3 0 eq_refl eq_refl eq_refl eq_refl eq_refl).
Defined.

Lemma extraction_agrees_when_not_rotated_witness :
  empty_custom_polygon (shape "triangle" 0 0 100 100) = false
  /\ @_obstacle_to_vertices Reference.library (shape "triangle" 0 0 100 100)
     = Ok (@get_obstacle_vertices Reference.library (shape "triangle" 0 0 100 100)).
Proof.
  split; [reflexivity|].
  exact (@extraction_agrees_when_not_rotated Reference.library (shape "triangle" 0 0 100 100)
           eq_refl eq_refl eq_refl eq_refl).
Defined.

Lemma detector_ignores_can_rotate_witness :
  o_can_rotate turned_custom_polygon = Some false
  /\ @_obstacle_to_vertices Reference.library turned_custom_polygon
     = Ok (map (fun v => padd v (0, 0)) [(0, 0); (100, 0); (0, 100)]).
Proof.
  split; [reflexivity|].
  refine (proj1 (@detector_ignores_can_rotate Reference.library turned_custom_polygon
                   [(0, 0); (100, 0); (0, 100)] eq_refl eq_refl _ eq_refl eq_refl)).
  discriminate.
Defined.

(** ** Lists of obstacles *)

Section DetectorLists.

Context {ext : External}.

Lemma check_overlap_existsb (self : CollisionDetector) (obstacle : Obstacle)
    (obstacles_list : list (nat * Obstacle)) (exclude : option nat) :
  check_overlap self obstacle obstacles_list exclude
  = existsb (fun entry => negb (is_excluded exclude (fst entry))
                          && overlaps_existing self obstacle (snd entry))
            obstacles_list.
Proof.
  induction obstacles_list as [|[address existing] rest IH]; [reflexivity|].
  cbn [check_overlap existsb fst snd]. rewrite IH. unfold is_excluded.
  destruct exclude as [a|]; [destruct (address =? a)%nat|]; cbn [negb andb orb];
    try reflexivity;
    destruct (overlaps_existing self obstacle existing); reflexivity.
Qed.

(** X18.  [check_overlap] answers for a list what it answers for its
    parts: an overlap with a longer list is an overlap with one of the
    two halves; the empty list gives [False]; and the entries at the
    excluded address can be left out. *)
Theorem check_overlap_by_parts (self : CollisionDetector) (obstacle : Obstacle)
    (first second : list (nat * Obstacle)) (exclude : option nat) :
  check_overlap self obstacle (first ++ second) exclude
  = check_overlap self obstacle first exclude || check_overlap self obstacle second exclude
  /\ check_overlap self obstacle [] exclude = false
  /\ check_overlap self obstacle first exclude
     = check_overlap self obstacle
         (filter (fun entry => negb (is_excluded exclude (fst entry))) first) None.
Proof.
  rewrite !check_overlap_existsb. split; [apply existsb_app|]. split; [reflexivity|].
  induction first as [|entry first IH]; [reflexivity|].
  cbn [existsb filter]. destruct (negb (is_excluded exclude (fst entry))) eqn:E.
  - cbn [existsb is_excluded negb andb]. rewrite IH. reflexivity.
  - cbn [andb orb]. exact IH.
Qed.

(** X19.  The moved obstacle is not compared with itself: a list whose
    entries all sit at the excluded address gives [False]. *)
Theorem check_overlap_excludes_self (self : CollisionDetector) (obstacle : Obstacle)
    (obstacles_list : list (nat * Obstacle)) (address : nat) :
  Forall (fun entry => fst entry = address) obstacles_list ->
  check_overlap self obstacle obstacles_list (Some address) = false.
Proof.
  intros H. rewrite check_overlap_existsb.
  induction H as [|entry rest He Hrest IH]; [reflexivity|].
  cbn [existsb is_excluded]. rewrite He, Nat.eqb_refl. exact IH.
Qed.

(** X20.  [get_obstacle_at_position] returns the last obstacle of the
    list that contains the position, and [None] exactly when none does. *)
Theorem get_obstacle_at_position_topmost (pos : point) (obstacles_list : list Obstacle) :
  (get_obstacle_at_position pos obstacles_list = None
   <-> Forall (fun o => point_in_obstacle pos o = false) obstacles_list)
  /\ (forall below top above,
        obstacles_list = below ++ top :: above ->
        point_in_obstacle pos top = true ->
        Forall (fun o => point_in_obstacle pos o = false) above ->
        get_obstacle_at_position pos obstacles_list = Some top).
Proof.
  unfold get_obstacle_at_position. split.
  - split.
    + intros H. apply Forall_forall. intros o Ho.
      apply (find_none _ _ H). apply -> in_rev. exact Ho.
    + intros H. rewrite Forall_forall in H.
      destruct (find _ _) as [o|] eqn:E; [|reflexivity].
      apply find_some in E. destruct E as [Hin Ho].
      apply in_rev in Hin. rewrite (H o Hin) in Ho. discriminate.
  - intros below top above -> Ht Ha.
    rewrite rev_app_distr. cbn [rev]. rewrite <- app_assoc. cbn [app].
    assert (Hr : Forall (fun o => point_in_obstacle pos o = false) (rev above)).
    { apply Forall_forall. intros o Ho. rewrite Forall_forall in Ha.
      apply Ha. apply in_rev. exact Ho. }
    induction Hr as [|o rest Ho Hrest IH].
    + cbn [app find]. rewrite Ht. reflexivity.
    + cbn [app find]. rewrite Ho. exact IH.
Qed.

Lemma expand_all_loop_spec (obstacles_list : list Obstacle) (method : option string)
    (so_far : list ExpandedEntry) (self : ObstacleExpander) :
  snd (expand_all_loop obstacles_list method so_far self) = self
  /\ fst (expand_all_loop obstacles_list method so_far self)
     = if existsb (fun o => match fst (expand_obstacle o method None self) with
                            | Raise _ => true
                            | Ok _ => false
                            end) obstacles_list
       then inr (name_not_defined "api_core")
       else inl (so_far
                 ++ flat_map
                      (fun o => match fst (expand_obstacle o method None self) with
                                | Ok (Some data) =>
                                    [{| original := o;
                                        expanded := data;
                                        entry_method :=
                                          method_or method
                                            (get (o_expansion_method o) METHOD_GENERALIZED) |}]
                                | _ => []
                                end) obstacles_list).
Proof.
  revert so_far. induction obstacles_list as [|o rest IH]; intros so_far.
  - cbn. rewrite app_nil_r. split; reflexivity.
  - cbn [expand_all_loop existsb flat_map].
    pose proof (expand_obstacle_state o method None self) as Hs.
    destruct (expand_obstacle o method None self) as [[data|e] self'].
    + cbn [snd] in Hs. subst self'. cbn [fst orb].
      destruct data as [data|].
      * destruct (IH (so_far
                      ++ [{| original := o; expanded := data;
                             entry_method :=
                               method_or method
                                 (get (o_expansion_method o) METHOD_GENERALIZED) |}]))
          as [H1 H2].
        split; [exact H1|]. rewrite H2. rewrite <- !app_assoc. reflexivity.
      * destruct (IH so_far) as [H1 H2]. split; [exact H1|]. rewrite H2. reflexivity.
    + cbn [snd] in Hs. subst self'. cbn [fst snd orb]. split; reflexivity.
Qed.

(** X21.  [expand_all_obstacles] leaves the expander as it was.  When no
    obstacle of the list makes [expand_obstacle] raise, it returns one
    entry for each obstacle whose expansion is not [None], in the order of
    the list.  When one does, the call does not skip it: the handler
    raises [NameError]. *)
Theorem expand_all_obstacles_outcome (obstacles_list : list Obstacle) (method : option string)
    (self : ObstacleExpander) :
  snd (expand_all_obstacles obstacles_list method self) = self
  /\ fst (expand_all_obstacles obstacles_list method self)
     = if existsb (fun o => match fst (expand_obstacle o method None self) with
                            | Raise _ => true
                            | Ok _ => false
                            end) obstacles_list
       then inr (name_not_defined "api_core")
       else inl (flat_map
                   (fun o => match fst (expand_obstacle o method None self) with
                             | Ok (Some data) =>
                                 [{| original := o;
                                     expanded := data;
                                     entry_method :=
                                       method_or method
                                         (get (o_expansion_method o) METHOD_GENERALIZED) |}]
                             | _ => []
                             end) obstacles_list).
Proof.
  unfold expand_all_obstacles.
  destruct (expand_all_loop_spec obstacles_list method [] self) as [H1 H2].
  split; [exact H1 | exact H2].
Qed.

End DetectorLists.

Lemma check_overlap_excludes_self_witness :
  Forall (fun entry : nat * Obstacle => fst entry = 7%nat) [(7%nat, square_50 0 0)]
  /\ @check_overlap Reference.library default_detector (square_50 0 0)
       [(7%nat, square_50 0 0)] (Some 7%nat) = false.
Proof.
  assert (H : Forall (fun entry : nat * Obstacle => fst entry = 7%nat)
                     [(7%nat, square_50 0 0)])
    by (apply Forall_cons; [reflexivity | apply Forall_nil]).
  split; [exact H|].
  exact (@check_overlap_excludes_self Reference.library default_detector (square_50 0 0)
           [(7%nat, square_50 0 0)] 7%nat H).
Defined.

(** X22.  The method names: each method of [get_all_methods] has a name of
    its own, no two the same, and every other symbol is "Unknown". *)
Theorem method_names (method : string) :
  (known_method method = false -> get_expansion_method_name method = "Unknown"%string)
  /\ (known_method method = true -> get_expansion_method_name method <> "Unknown"%string)
  /\ NoDup (map get_expansion_method_name get_all_methods)
  /\ length get_all_methods = 3%nat.
Proof.
  unfold known_method, get_all_methods, get_expansion_method_name. cbn [existsb].
  split; [|split; [|split]].
  - intros H. repeat (apply orb_false_iff in H; destruct H as [? H]).
    repeat match goal with
           | E : String.eqb method _ = false |- _ => rewrite E; clear E
           end.
    reflexivity.
  - intros H.
    destruct (String.eqb method METHOD_PRESERVE_SHAPE); [discriminate|].
    destruct (String.eqb method METHOD_CONVEX); [discriminate|].
    destruct (String.eqb method METHOD_GENERALIZED); [discriminate|].
    discriminate.
  - cbn. repeat constructor; cbn; intuition discriminate.
  - reflexivity.
Qed.

(** ** More on the authoring-time checks *)

(** X23.  [segments_intersect] answers the same when the two segments
    change places. *)
Theorem segments_intersect_sym (p1 p2 p3 p4 : point) :
  segments_intersect p1 p2 p3 p4 = segments_intersect p3 p4 p1 p2.
Proof.
  unfold segments_intersect. cbv zeta.
  rewrite (Nat.eqb_sym (orientation p3 p4 p1) (orientation p3 p4 p2)).
  rewrite (Nat.eqb_sym (orientation p1 p2 p3) (orientation p1 p2 p4)).
  destruct (orientation p1 p2 p4 =? orientation p1 p2 p3)%nat;
    destruct (orientation p3 p4 p2 =? orientation p3 p4 p1)%nat;
    cbn [negb andb];
    destruct (orientation p1 p2 p3 =? 0)%nat, (orientation p1 p2 p4 =? 0)%nat,
             (orientation p3 p4 p1 =? 0)%nat, (orientation p3 p4 p2 =? 0)%nat;
    cbn [andb];
    destruct (on_segment p1 p3 p2), (on_segment p1 p4 p2),
             (on_segment p3 p1 p4), (on_segment p3 p2 p4); reflexivity.
Qed.

Lemma on_segment_start (p r : point) : on_segment p p r = true.
Proof.
  unfold on_segment, Qgeb. rewrite !andb_true_iff. rewrite !Qle_bool_iff.
  repeat split; solve [apply Q.le_max_l | apply Q.le_min_l].
Qed.

Lemma segments_intersect_shared_end (last new prev : point) :
  fst new == fst last \/ snd new == snd last ->
  segments_intersect last new prev last = true.
Proof.
  intros Haxis. unfold segments_intersect. cbv zeta.
  assert (Ho : orientation last new last = 0%nat).
  { unfold orientation.
    assert (Hz : (snd new - snd last) * (fst last - fst new)
                 - (fst new - fst last) * (snd last - snd last) == 0)
      by (destruct Haxis as [H|H]; rewrite H; ring).
    apply Qeq_bool_iff in Hz. rewrite Hz. reflexivity. }
  rewrite Ho. cbn [Nat.eqb andb]. rewrite on_segment_start.
  repeat match goal with
         | |- context [if ?b then _ else _] => destruct b
         end; reflexivity.
Qed.

(** X24.  [check_new_edge_intersection] answers [False] when fewer than
    two points are placed.  With two or more it answers [True] whenever
    the new point is level with the last point or straight above or
    below it: the candidate edge is tested against the placed edge that
    ends in the last point. *)
Theorem check_new_edge_intersection_axis_aligned (existing_points : list point)
    (new_point : point) :
  ((length existing_points < 2)%nat ->
   check_new_edge_intersection existing_points new_point = false)
  /\ ((2 <= length existing_points)%nat ->
      fst new_point == fst (vertex_at existing_points (length existing_points - 1))
      \/ snd new_point == snd (vertex_at existing_points (length existing_points - 1)) ->
      check_new_edge_intersection existing_points new_point = true).
Proof.
  split.
  - intros H. unfold check_new_edge_intersection. cbv zeta.
    apply Nat.ltb_lt in H. rewrite H. reflexivity.
  - intros Hn Haxis. rewrite check_new_edge_intersection_tests.
    apply Nat.leb_le in Hn. rewrite Hn. cbn [andb].
    rewrite (segments_intersect_shared_end _ _ _ Haxis). apply orb_true_r.
Qed.

Lemma check_new_edge_intersection_axis_aligned_witness :
  (2 <= length [(0, 0); (20, 20)])%nat
  /\ check_new_edge_intersection [(0, 0); (20, 20)] (40, 20) = true.
Proof.
  split; [simpl; lia|].
  refine (proj2 (check_new_edge_intersection_axis_aligned [(0, 0); (20, 20)] (40, 20)) _ _).
  - simpl; lia.
  - right. reflexivity.
Defined.

Lemma self_intersection_pairs (points : list point) (i j : nat) :
  (3 <= length points)%nat ->
  In (i, j) (snd (check_polygon_self_intersection points))
  <-> (i + 2 <= j)%nat /\ (j < length points)%nat
      /\ ~ (i = 0%nat /\ j = (length points - 1)%nat)
      /\ segments_intersect (vertex_at points i)
           (vertex_at points ((i + 1) mod length points))
           (vertex_at points j)
           (vertex_at points ((j + 1) mod length points)) = true.
Proof.
  intros Hn. unfold check_polygon_self_intersection.
  assert (Hl : (length points <? 3)%nat = false) by (apply Nat.ltb_ge; exact Hn).
  rewrite Hl. cbv zeta. cbn [snd]. rewrite in_flat_map. split.
  - intros [i' [Hi' H]]. rewrite in_flat_map in H. destruct H as [j' [Hj' H]].
    apply in_seq in Hi'. apply in_seq in Hj'.
    destruct ((j' =? length points - 1)%nat && (i' =? 0)%nat) eqn:E; [destruct H|].
    destruct (segments_intersect _ _ _ _) eqn:S; [|destruct H].
    destruct H as [H|[]]. injection H as <- <-.
    repeat split; try lia; [|exact S].
    intros [-> ->]. rewrite !Nat.eqb_refl in E. discriminate.
  - intros [Hij [Hj [Hne S]]]. exists i. split; [apply in_seq; lia|].
    rewrite in_flat_map. exists j. split; [apply in_seq; lia|].
    destruct ((j =? length points - 1)%nat && (i =? 0)%nat) eqn:E.
    + apply andb_true_iff in E. destruct E as [E1 E2].
      apply Nat.eqb_eq in E1. apply Nat.eqb_eq in E2. exfalso. apply Hne. split; assumption.
    + rewrite S. left. reflexivity.
Qed.

(** X25.  [check_polygon_self_intersection] reports exactly the pairs
    [(i, j)] of edges that are not neighbours, [j] at least [i + 2] and
    not the pair of the first and the last edge, on which
    [segments_intersect] answers [True]; its flag says whether there is
    such a pair.  With fewer than three points, and for every triangle,
    it reports none. *)
Theorem self_intersection_reports (points : list point) :
  ((3 <= length points)%nat ->
   forall i j,
     In (i, j) (snd (check_polygon_self_intersection points))
     <-> (i + 2 <= j)%nat /\ (j < length points)%nat
         /\ ~ (i = 0%nat /\ j = (length points - 1)%nat)
         /\ segments_intersect (vertex_at points i)
              (vertex_at points ((i + 1) mod length points))
              (vertex_at points j)
              (vertex_at points ((j + 1) mod length points)) = true)
  /\ (fst (check_polygon_self_intersection points) = true
      <-> snd (check_polygon_self_intersection points) <> [])
  /\ ((length points <= 3)%nat ->
      check_polygon_self_intersection points = (false, [])).
Proof.
  split; [intros Hn i j; apply self_intersection_pairs; exact Hn|]. split.
  - unfold check_polygon_self_intersection.
    destruct (length points <? 3)%nat; cbv zeta; cbn [fst snd].
    + split; [discriminate | intros H; contradiction].
    + destruct (flat_map _ _) as [|c cs]; cbn.
      * split; [discriminate | intros H; contradiction].
      * split; [discriminate | reflexivity].
  - intros Hn.
    destruct (Nat.eq_dec (length points) 3) as [E|E].
    + assert (He : snd (check_polygon_self_intersection points) = []).
      { destruct (snd (check_polygon_self_intersection points)) as [|[i j] cs] eqn:Es;
          [reflexivity|].
        assert (Hin : In (i, j) (snd (check_polygon_self_intersection points)))
          by (rewrite Es; left; reflexivity).
        apply self_intersection_pairs in Hin; [|lia].
        destruct Hin as [H1 [H2 [H3 _]]]. exfalso. apply H3. lia. }
      unfold check_polygon_self_intersection in *.
      destruct (length points <? 3)%nat; [reflexivity|].
      cbv zeta in *. cbn [snd] in He. rewrite He. reflexivity.
    + unfold check_polygon_self_intersection.
      assert (Hl : (length points <? 3)%nat = true) by (apply Nat.ltb_lt; lia).
      rewrite Hl. reflexivity.
Qed.

Lemma self_intersection_reports_witness :
  (3 <= length [(0, 0); (10, 10); (10, 0); (0, 10)])%nat
  /\ (In (0%nat, 2%nat) (snd (check_polygon_self_intersection
                                 [(0, 0); (10, 10); (10, 0); (0, 10)]))
      <-> (0 + 2 <= 2)%nat /\ (2 < length [(0, 0); (10, 10); (10, 0); (0, 10)])%nat
          /\ ~ (0%nat = 0%nat
                /\ 2%nat = (length [(0, 0); (10, 10); (10, 0); (0, 10)] - 1)%nat)
          /\ segments_intersect
               (vertex_at [(0, 0); (10, 10); (10, 0); (0, 10)] 0)
               (vertex_at [(0, 0); (10, 10); (10, 0); (0, 10)]
                          ((0 + 1) mod length [(0, 0); (10, 10); (10, 0); (0, 10)]))
               (vertex_at [(0, 0); (10, 10); (10, 0); (0, 10)] 2)
               (vertex_at [(0, 0); (10, 10); (10, 0); (0, 10)]
                          ((2 + 1) mod length [(0, 0); (10, 10); (10, 0); (0, 10)]))
             = true).
Proof.
  assert (H : (3 <= length [(0, 0); (10, 10); (10, 0); (0, 10)])%nat) by (simpl; lia).
  split; [exact H|].
  exact (proj1 (self_intersection_reports [(0, 0); (10, 10); (10, 0); (0, 10)]) H 0%nat 2%nat).
Defined.

(** ** Grid snapping and clamping *)

Lemma py_round_near (q : Q) : Qabs (inject_Z (py_round q) - q) <= 1 # 2.
Proof.
  unfold py_round. cbv zeta.
  pose proof (Qfloor_le q) as Hlo. pose proof (Qlt_floor q) as Hhi.
  rewrite inject_Z_plus in Hhi. change (inject_Z 1) with 1 in Hhi.
  apply Qabs_Qle_condition.
  destruct (Qltb (q - inject_Z (Qfloor q)) (1 # 2)) eqn:E1.
  { apply Qltb_lt in E1. split; lra. }
  apply Qltb_ge in E1.
  destruct (Qltb (1 # 2) (q - inject_Z (Qfloor q))) eqn:E2.
  { rewrite inject_Z_plus. change (inject_Z 1) with 1. split; lra. }
  apply Qltb_ge in E2.
  destruct (Z.even (Qfloor q)).
  - split; lra.
  - rewrite inject_Z_plus. change (inject_Z 1) with 1. split; lra.
Qed.

Lemma py_round_integer (k : Z) (q : Q) : q == inject_Z k -> py_round q = k.
Proof.
  intros H. unfold py_round. cbv zeta.
  assert (Hf : Qfloor q = k) by (rewrite H; apply Qfloor_Z).
  rewrite Hf.
  assert (E : Qltb (q - inject_Z k) (1 # 2) = true) by (apply Qltb_lt; lra).
  rewrite E. reflexivity.
Qed.

Lemma snapped_near (value grid_size : Q) :
  0 < grid_size ->
  Qabs (inject_Z (py_round (value / grid_size)) * grid_size - value) <= grid_size / 2.
Proof.
  intros Hg.
  pose proof (py_round_near (value / grid_size)) as Hn.
  apply Qabs_Qle_condition in Hn. apply Qabs_Qle_condition.
  set (r := inject_Z (py_round (value / grid_size))) in *.
  assert (Hv : value == (value / grid_size) * grid_size) by (field; lra).
  destruct Hn as [H1 H2].
  assert (H1' : (- (1 # 2)) * grid_size <= (r - value / grid_size) * grid_size)
    by (apply Qmult_le_compat_r; lra).
  assert (H2' : (r - value / grid_size) * grid_size <= (1 # 2) * grid_size)
    by (apply Qmult_le_compat_r; lra).
  assert (He : r * grid_size - value == (r - value / grid_size) * grid_size).
  { rewrite Hv at 1. ring. }
  rewrite He. split.
  - apply Qle_trans with (y := - (1 # 2) * grid_size); [|exact H1'].
    apply Qle_lteq. right. field.
  - apply Qle_trans with (y := (1 # 2) * grid_size); [exact H2'|].
    apply Qle_lteq. right. field.
Qed.



(** X27.  [clamp] with bounds in order returns a value between them,
    the value itself when it is between them already; with the bounds
    out of order it returns the lower bound. *)
Theorem clamp_within_bounds (value min_value max_value : Q) :
  (min_value <= max_value ->
   min_value <= clamp value min_value max_value <= max_value
   /\ (min_value <= value <= max_value -> clamp value min_value max_value == value))
  /\ (max_value < min_value -> clamp value min_value max_value == min_value).
Proof.
  unfold clamp.
  destruct (Q.max_spec min_value (Qmin value max_value)) as [[H1 H2]|[H1 H2]];
    destruct (Q.min_spec value max_value) as [[H3 H4]|[H3 H4]];
    rewrite H2 in *; try rewrite H4 in *;
    (split; [intros Hb; split; [split; lra | intros [Ha Hc]; try rewrite H4; lra]
            | intros Hb; try rewrite H4; lra]).
Qed.

Lemma clamp_within_bounds_witness :
  0 <= 10 /\ 0 <= clamp 15 0 10 <= 10.
Proof.
  assert (H : 0 <= 10) by (vm_compute; discriminate).
  split; [exact H|].
  exact (proj1 (proj1 (clamp_within_bounds 15 0 10) H)).
Defined.

(** ** The polygon editor *)

Lemma subsequence_refl {A : Type} (l : list A) : subsequence l l.
Proof. induction l as [|x l IH]; [constructor | apply subsequence_keep; exact IH]. Qed.

Lemma subsequence_trans {A : Type} (a b c : list A) :
  subsequence a b -> subsequence b c -> subsequence a c.
Proof.
  intros Hab Hbc. revert a Hab.
  induction Hbc as [|x b c Hbc IH|x b c Hbc IH]; intros a Hab.
  - exact Hab.
  - apply subsequence_skip. apply IH. exact Hab.
  - inversion Hab as [|y a' b' Hab'|y a' b' Hab']; subst.
    + apply subsequence_skip. apply IH. exact Hab'.
    + apply subsequence_keep. apply IH. exact Hab'.
Qed.

Lemma subsequence_app_keep {A : Type} (a b : list A) (p : A) :
  subsequence a b -> subsequence (a ++ [p]) (b ++ [p]).
Proof.
  intros H. induction H as [|x a b H IH|x a b H IH]; cbn [app].
  - apply subsequence_keep. constructor.
  - apply subsequence_skip. exact IH.
  - apply subsequence_keep. exact IH.
Qed.

Lemma subsequence_app_skip {A : Type} (a b : list A) (p : A) :
  subsequence a b -> subsequence a (b ++ [p]).
Proof.
  intros H. induction H as [|x a b H IH|x a b H IH]; cbn [app].
  - apply subsequence_skip. constructor.
  - apply subsequence_skip. exact IH.
  - apply subsequence_keep. exact IH.
Qed.

Lemma subsequence_removelast {A : Type} (l : list A) : subsequence (removelast l) l.
Proof.
  induction l as [|x l IH]; [constructor|].
  destruct l as [|y l].
  - cbn. apply subsequence_skip. constructor.
  - change (removelast (x :: y :: l)) with (x :: removelast (y :: l)).
    apply subsequence_keep. exact IH.
Qed.

Lemma subsequence_length {A : Type} (a b : list A) :
  subsequence a b -> (length a <= length b)%nat.
Proof. intros H. induction H; cbn [length]; lia. Qed.

Lemma nth_last (l : list point) (d : point) :
  l <> [] -> nth (length l - 1) l d = last l d.
Proof.
  induction l as [|x l IH]; [contradiction|]. intros _.
  destruct l as [|y l]; [reflexivity|].
  change (last (x :: y :: l) d) with (last (y :: l) d).
  rewrite <- IH by discriminate. cbn [length].
  replace (S (S (length l)) - 1)%nat with (S (S (length l) - 1)) by lia. reflexivity.
Qed.

Lemma fold_min_le (rest : list Q) (acc : Q) :
  fold_left Qmin rest acc <= acc
  /\ forall v, In v rest -> fold_left Qmin rest acc <= v.
Proof.
  revert acc. induction rest as [|x rest IH]; intros acc.
  - split; [apply Qle_refl | intros v []].
  - cbn [fold_left]. destruct (IH (Qmin acc x)) as [H1 H2]. split.
    + eapply Qle_trans; [exact H1 | apply Q.le_min_l].
    + intros v [<-|Hv]; [|apply H2; exact Hv].
      eapply Qle_trans; [exact H1 | apply Q.le_min_r].
Qed.

Lemma minimum_le (values : list Q) (v : Q) : In v values -> minimum values <= v.
Proof.
  destruct values as [|first rest]; [intros []|]. unfold minimum.
  destruct (fold_min_le rest first) as [H1 H2].
  intros [<-|Hv]; [exact H1 | apply H2; exact Hv].
Qed.

Section EditorProperties.

Context {ext : External}.

Lemma keep_if_far_invariant (tolerance : Q) (cleaned : list point) (p : point) :
  cleaned <> [] ->
  (forall i, (S i < length cleaned)%nat ->
     Qgtb (Editor.distance (vertex_at cleaned (S i)) (vertex_at cleaned i)) tolerance = true) ->
  Editor.keep_if_far tolerance cleaned p <> []
  /\ vertex_at (Editor.keep_if_far tolerance cleaned p) 0 = vertex_at cleaned 0
  /\ (forall i, (S i < length (Editor.keep_if_far tolerance cleaned p))%nat ->
        Qgtb (Editor.distance (vertex_at (Editor.keep_if_far tolerance cleaned p) (S i))
                              (vertex_at (Editor.keep_if_far tolerance cleaned p) i))
             tolerance = true).
Proof.
  intros Hne Hfar. unfold Editor.keep_if_far.
  destruct (Qgtb (Editor.distance p (last cleaned (0, 0))) tolerance) eqn:E;
    [|repeat split; assumption].
  split; [intros H; apply app_eq_nil in H; destruct H as [_ H]; discriminate|].
  split; [destruct cleaned; [contradiction | reflexivity]|].
  intros i Hi. rewrite length_app in Hi. cbn [length] in Hi. unfold vertex_at.
  destruct (Nat.lt_ge_cases (S i) (length cleaned)) as [Hlt|Hge].
  - rewrite !app_nth1 by lia. apply Hfar. exact Hlt.
  - assert (Hi' : S i = length cleaned) by lia.
    rewrite (app_nth2 cleaned [p]) by lia.
    rewrite (app_nth1 cleaned [p]) by lia.
    replace (S i - length cleaned)%nat with 0%nat by lia. cbn [nth].
    replace i with (length cleaned - 1)%nat by lia.
    rewrite nth_last by exact Hne. exact E.
Qed.

Lemma fold_keep_if_far (tolerance : Q) (rest cleaned done : list point) :
  cleaned <> [] ->
  subsequence cleaned done ->
  (forall i, (S i < length cleaned)%nat ->
     Qgtb (Editor.distance (vertex_at cleaned (S i)) (vertex_at cleaned i)) tolerance = true) ->
  fold_left (Editor.keep_if_far tolerance) rest cleaned <> []
  /\ subsequence (fold_left (Editor.keep_if_far tolerance) rest cleaned) (done ++ rest)
  /\ vertex_at (fold_left (Editor.keep_if_far tolerance) rest cleaned) 0 = vertex_at cleaned 0
  /\ (forall i,
        (S i < length (fold_left (Editor.keep_if_far tolerance) rest cleaned))%nat ->
        Qgtb (Editor.distance
                (vertex_at (fold_left (Editor.keep_if_far tolerance) rest cleaned) (S i))
                (vertex_at (fold_left (Editor.keep_if_far tolerance) rest cleaned) i))
             tolerance = true).
Proof.
  revert cleaned done. induction rest as [|p rest IH]; intros cleaned done Hne Hsub Hfar.
  - cbn [fold_left]. rewrite app_nil_r. repeat split; assumption.
  - cbn [fold_left].
    destruct (keep_if_far_invariant tolerance cleaned p Hne Hfar) as [H1 [H2 H3]].
    assert (Hs : subsequence (Editor.keep_if_far tolerance cleaned p) (done ++ [p])).
    { unfold Editor.keep_if_far. destruct (Qgtb _ _).
      - apply subsequence_app_keep. exact Hsub.
      - apply subsequence_app_skip. exact Hsub. }
    destruct (IH _ (done ++ [p]) H1 Hs H3) as [K1 [K2 [K3 K4]]].
    rewrite <- app_assoc in K2. cbn [app] in K2.
    split; [exact K1|]. split; [exact K2|]. split; [rewrite K3; exact H2 | exact K4].
Qed.

Lemma remove_duplicate_points_sub (self : Editor.PolygonEditor) (points : list point) :
  subsequence (Editor._remove_duplicate_points self points) points
  /\ (points <> [] ->
      Editor._remove_duplicate_points self points <> []
      /\ vertex_at (Editor._remove_duplicate_points self points) 0 = vertex_at points 0)
  /\ (forall i,
        (S i < length (Editor._remove_duplicate_points self points))%nat ->
        Qgtb (Editor.distance (vertex_at (Editor._remove_duplicate_points self points) (S i))
                              (vertex_at (Editor._remove_duplicate_points self points) i))
             (Editor.grid_size self / 2) = true).
Proof.
  unfold Editor._remove_duplicate_points. cbv zeta.
  destruct (length points <? 2)%nat eqn:El.
  { apply Nat.ltb_lt in El. split; [apply subsequence_refl|]. split; [intros H; split; auto|].
    intros i Hi; lia. }
  apply Nat.ltb_ge in El.
  destruct points as [|first rest]; [cbn in El; lia|].
  change (skipn 1 (first :: rest)) with rest.
  change (vertex_at (first :: rest) 0) with first.
  assert (Hsub0 : subsequence [first] [first]) by apply subsequence_refl.
  assert (Hfar0 : forall i, (S i < length [first])%nat ->
            Qgtb (Editor.distance (vertex_at [first] (S i)) (vertex_at [first] i))
                 (Editor.grid_size self / 2) = true)
    by (intros i Hi; cbn in Hi; lia).
  assert (Hne0 : [first] <> []) by discriminate.
  destruct (fold_keep_if_far (Editor.grid_size self / 2) rest [first] [first]
              Hne0 Hsub0 Hfar0) as [K1 [K2 [K3 K4]]].
  cbn [app] in K2. change (vertex_at [first] 0) with first in K3.
  set (cleaned := fold_left (Editor.keep_if_far (Editor.grid_size self / 2)) rest [first]) in *.
  assert (Hpop : (1 < length cleaned)%nat ->
                 subsequence (removelast cleaned) (first :: rest)
                 /\ removelast cleaned <> []
                 /\ vertex_at (removelast cleaned) 0 = first
                 /\ (forall i, (S i < length (removelast cleaned))%nat ->
                       Qgtb (Editor.distance (vertex_at (removelast cleaned) (S i))
                                             (vertex_at (removelast cleaned) i))
                            (Editor.grid_size self / 2) = true)).
  { intros Hlen.
    split; [eapply subsequence_trans; [apply subsequence_removelast | exact K2]|].
    clearbody cleaned. clear K2.
    destruct (exists_last K1) as [front [a Hc]]. subst cleaned.
    rewrite removelast_last.
    rewrite length_app in Hlen. cbn [length] in Hlen.
    assert (Hf : front <> []) by (destruct front; [cbn in Hlen; lia | discriminate]).
    split; [exact Hf|]. split.
    - destruct front; [contradiction | exact K3].
    - intros i Hi. specialize (K4 i). rewrite length_app in K4. cbn [length] in K4.
      unfold vertex_at in *. rewrite !app_nth1 in K4 by lia. apply K4. lia. }
  split; [|split].
  - destruct (1 <? length cleaned)%nat eqn:E1; [|exact K2].
    destruct (Qltb _ _); [|exact K2].
    apply Nat.ltb_lt in E1.
    eapply subsequence_trans; [apply subsequence_removelast | exact K2].
  - intros _.
    destruct (1 <? length cleaned)%nat eqn:E1; [|split; assumption].
    destruct (Qltb _ _); [|split; assumption].
    apply Nat.ltb_lt in E1. destruct (Hpop E1) as [_ [H2 [H3 _]]]. split; assumption.
  - destruct (1 <? length cleaned)%nat eqn:E1; [|exact K4].
    destruct (Qltb _ _); [|exact K4].
    apply Nat.ltb_lt in E1. destruct (Hpop E1) as [_ [_ [_ H4]]]. exact H4.
Qed.

(** X28.  [_remove_duplicate_points] returns the points it was given
    with some of them left out, never the first one; in the result every
    point is farther than half the grid size from the one before it.  A
    list of fewer than two points is returned as it is. *)
Theorem remove_duplicate_points_keeps (self : Editor.PolygonEditor) (points : list point) :
  subsequence (Editor._remove_duplicate_points self points) points
  /\ (points <> [] ->
      Editor._remove_duplicate_points self points <> []
      /\ vertex_at (Editor._remove_duplicate_points self points) 0 = vertex_at points 0)
  /\ (forall i,
        (S i < length (Editor._remove_duplicate_points self points))%nat ->
        Qgtb (Editor.distance (vertex_at (Editor._remove_duplicate_points self points) (S i))
                              (vertex_at (Editor._remove_duplicate_points self points) i))
             (Editor.grid_size self / 2) = true)
  /\ ((length points < 2)%nat -> Editor._remove_duplicate_points self points = points).
Proof.
  destruct (remove_duplicate_points_sub self points) as [H1 [H2 H3]].
  split; [exact H1|]. split; [exact H2|]. split; [exact H3|].
  intros H. unfold Editor._remove_duplicate_points.
  apply Nat.ltb_lt in H. rewrite H. reflexivity.
Qed.


(** X30.  An obstacle that [create_obstacle] returns is a custom polygon
    that is not turned and may not rotate, at least 10 wide and 10 high,
    with at least three points, no more than were drawn, none of them
    with a negative coordinate.  Vertex extraction does not raise on it:
    the expander and the detector both return its points moved to its
    position.  With fewer than three points drawn there is no
    obstacle. *)
Theorem create_obstacle_custom_polygon (self : Editor.PolygonEditor) (obstacle : Obstacle) :
  Editor.create_obstacle self = Some obstacle ->
  o_type obstacle = Some "custom_polygon"%string
  /\ o_rotation obstacle = Some 0
  /\ o_can_rotate obstacle = Some false
  /\ 10 <= o_width obstacle
  /\ 10 <= o_height obstacle
  /\ (3 <= length (Editor.points self))%nat
  /\ exists local_points,
       o_points obstacle = Some local_points
       /\ (3 <= length local_points <= length (Editor.points self))%nat
       /\ Forall (fun p => 0 <= fst p /\ 0 <= snd p) local_points
       /\ _obstacle_to_vertices obstacle
          = Ok (map (fun v => padd v (o_x obstacle, o_y obstacle)) local_points)
       /\ get_obstacle_vertices obstacle
          = map (fun v => padd v (o_x obstacle, o_y obstacle)) local_points.
Proof.
  unfold Editor.create_obstacle, Editor.can_finish. cbv zeta.
  destruct (3 <=? length (Editor.points self))%nat eqn:E3; [|discriminate].
  cbn [negb]. apply Nat.leb_le in E3.
  destruct (length (Editor.points self) =? 0)%nat; [discriminate|].
  pose proof (proj1 (remove_duplicate_points_sub self (Editor.points self))) as Hsub.
  set (cleaned := Editor._remove_duplicate_points self (Editor.points self)) in *.
  destruct (length cleaned <? 3)%nat eqn:Ec; [discriminate|]. apply Nat.ltb_ge in Ec.
  set (min_x := minimum (map fst cleaned)).
  set (min_y := minimum (map snd cleaned)).
  set (width := maximum (map fst cleaned) - min_x).
  set (height := maximum (map snd cleaned) - min_y).
  destruct (Qltb width 10) eqn:Ew; [discriminate|].
  destruct (Qltb height 10) eqn:Eh; [discriminate|].
  cbn [orb]. apply Qltb_ge in Ew. apply Qltb_ge in Eh.
  intros H.
  assert (Ho : obstacle
               = {| o_type := Some "custom_polygon"%string;
                    o_x := inject_Z (py_int min_x);
                    o_y := inject_Z (py_int min_y);
                    o_width := inject_Z (py_int width);
                    o_height := inject_Z (py_int height);
                    o_rotation := Some 0;
                    o_can_rotate := Some false;
                    o_points := Some (map (fun p => (fst p - min_x, snd p - min_y)) cleaned);
                    o_expansion_distance := None;
                    o_expansion_method := None;
                    o_use_directional_expansion := None;
                    o_directional_expansion := None;
                    o_force_convex_hull := None |}) by congruence.
  clear H. rewrite Ho.
  assert (Hint : forall q, 10 <= q -> 10 <= inject_Z (py_int q)).
  { intros q Hq. unfold py_int.
    assert (Hn : Qltb q 0 = false) by (apply Qltb_ge; lra).
    rewrite Hn. change 10 with (inject_Z 10). rewrite <- Zle_Qle.
    change 10%Z with (Qfloor (inject_Z 10)). apply Qfloor_resp_le. exact Hq. }
  cbn [o_type o_rotation o_can_rotate o_width o_height o_points o_x o_y].
  split; [reflexivity|]. split; [reflexivity|]. split; [reflexivity|].
  split; [apply Hint; exact Ew|]. split; [apply Hint; exact Eh|]. split; [exact E3|].
  eexists. split; [reflexivity|]. rewrite length_map.
  split; [split; [exact Ec | apply subsequence_length; exact Hsub]|].
  split.
  { apply Forall_forall. intros q Hq. apply in_map_iff in Hq.
    destruct Hq as [p [<- Hp]]. cbn [fst snd].
    assert (H1 : min_x <= fst p) by (apply minimum_le; apply in_map; exact Hp).
    assert (H2 : min_y <= snd p) by (apply minimum_le; apply in_map; exact Hp).
    split; lra. }
  destruct cleaned as [|c cs]; [cbn in Ec; lia|].
  split; reflexivity.
Qed.

End EditorProperties.


Lemma create_obstacle_custom_polygon_witness :
  exists obstacle,
    @Editor.create_obstacle Reference.library editor_with_triangle = Some obstacle
    /\ o_type obstacle = Some "custom_polygon"%string.
Proof.
  destruct (@Editor.create_obstacle Reference.library editor_with_triangle)
    as [obstacle|] eqn:E.
  - exists obstacle. split; [reflexivity|].
    exact (proj1 (@create_obstacle_custom_polygon Reference.library editor_with_triangle
                    obstacle E)).
  - vm_compute in E. discriminate.
Defined.
